(** * Session workflow of the Tessiture back end

    A shallow embedding of the authentication subsystem:

    - [Utils/token.utils.js]       ([TokenUtils]),
    - [Repository/Auth.repository.js] ([AuthRepository]),
    - [Service/Auth.service.js]    ([AuthService]),
    - [Controller/Auth.controller.js] ([AuthController]),
    - [Middleware/errorHandler.js] ([errorHandler]).

    The [User] table is a list of rows in table order.  An [async] method is
    a computation over the table that either throws a JavaScript error or
    returns a value; a throw keeps every write made before it.  The clock
    ([Date.now()] in seconds), the salt drawn by bcrypt and [process.env]
    are inputs of each call; the clock is read once per call.  The libraries [jsonwebtoken] and [bcryptjs]
    are modelled symbolically: a signed token is its claims together with
    the key that signed them, a digest is the cost, the salt and the
    plaintext it was computed from.  SQL [=] is equality of values;
    [console.log] output is not part of the state. *)

From Stdlib Require Import String Ascii List ZArith Bool Lia.
Import ListNotations.

Local Open Scope string_scope.
Local Open Scope Z_scope.

(** ** JavaScript values *)

Module Js.

(** A thrown value: the error's [name], its [message] and the optional
    [statusCode] property the error handler looks at. *)
Record JsError : Type := mkJsError {
  name       : string;
  message    : string;
  statusCode : option Z
}.

(** [new Error(msg)] *)
Definition Error (msg : string) : JsError :=
  mkJsError "Error" msg None.

(** What evaluating an identifier with no binding throws. *)
Definition ReferenceError (ident : string) : JsError :=
  mkJsError "ReferenceError" (ident ++ " is not defined") None.

Definition lower_ascii (c : ascii) : ascii :=
  let n := nat_of_ascii c in
  if (Nat.leb 65 n && Nat.leb n 90)%bool then ascii_of_nat (n + 32) else c.

(** [String.prototype.toLowerCase], on the ASCII letters. *)
Fixpoint toLowerCase (s : string) : string :=
  match s with
  | EmptyString => EmptyString
  | String c s' => String (lower_ascii c) (toLowerCase s')
  end.

(** Truthiness of an optional number ([undefined], [0] are falsy). *)
Definition truthy (v : option Z) : bool :=
  match v with
  | None => false
  | Some n => negb (n =? 0)
  end.

(** [v || d] on an optional number. *)
Definition or_default (v : option Z) (d : Z) : Z :=
  match v with
  | Some n => if n =? 0 then d else n
  | None => d
  end.

(** Truthiness of an optional string ([undefined], [""] are falsy). *)
Definition truthy_string (v : option string) : bool :=
  match v with
  | None => false
  | Some s => negb (s =? "")%string
  end.

End Js.

(** ** bcryptjs, symbolically *)

Module Bcrypt.

(** The content of a [password] column: a bcrypt digest, or any other
    string. *)
Inductive digest : Type :=
| Digest (cost : nat) (salt : string) (plain : string)
| NotADigest (s : string).

(** [bcrypt.hash(password, rounds)], with the salt it draws. *)
Definition hash (password : string) (rounds : nat) (salt : string) : digest :=
  Digest rounds salt password.

(** [bcrypt.compare(password, stored)] *)
Definition compare (password : string) (stored : digest) : bool :=
  match stored with
  | Digest _ _ plain => (password =? plain)%string
  | NotADigest _ => false
  end.

End Bcrypt.

(** ** jsonwebtoken, symbolically *)

Module Jwt.

(** The claim set of a token: the payload handed to [jwt.sign] ([rolId]
    is absent from refresh tokens) and the [iat] and [exp] the library
    adds. *)
Record payload : Type := mkPayload {
  id    : Z;
  email : string;
  rolId : option Z;
  iat   : Z;
  exp   : Z
}.

(** A token string: an HS256 token over a payload with a key, or a string
    that does not parse as a token. *)
Inductive token : Type :=
| Signed (p : payload) (key : string)
| Malformed (s : string).

Definition JsonWebTokenError (msg : string) : Js.JsError :=
  Js.mkJsError "JsonWebTokenError" msg None.

Definition TokenExpiredError : Js.JsError :=
  Js.mkJsError "TokenExpiredError" "jwt expired" None.

(** [jwt.sign(payload, secret, { expiresIn })] at clock [now]. *)
Definition sign (uid : Z) (mail : string) (role : option Z)
    (secret : option string) (expiresIn : Z) (now : Z)
    : Js.JsError + token :=
  match secret with
  | Some key =>
      if (key =? "")%string
      then inl (Js.Error "secretOrPrivateKey must have a value")
      else inr (Signed (mkPayload uid mail role now (now + expiresIn)) key)
  | None => inl (Js.Error "secretOrPrivateKey must have a value")
  end.

(** [jwt.verify(token, secret)] at clock [now]. *)
Definition verify (t : token) (secret : option string) (now : Z)
    : Js.JsError + payload :=
  match t with
  | Malformed _ => inl (JsonWebTokenError "jwt malformed")
  | Signed p key =>
      if Js.truthy_string secret then
        match secret with
        | Some s =>
            if (key =? s)%string then
              if now >=? exp p then inl TokenExpiredError else inr p
            else inl (JsonWebTokenError "invalid signature")
        | None => inl (JsonWebTokenError "secret or public key must be provided")
        end
      else inl (JsonWebTokenError "secret or public key must be provided")
  end.

Definition option_Z_eqb (a b : option Z) : bool :=
  match a, b with
  | Some x, Some y => x =? y
  | None, None => true
  | _, _ => false
  end.

Definition payload_eqb (p q : payload) : bool :=
  (id p =? id q) && (email p =? email q)%string
  && option_Z_eqb (rolId p) (rolId q)
  && (iat p =? iat q) && (exp p =? exp q).

(** Equality of token strings. *)
Definition token_eqb (a b : token) : bool :=
  match a, b with
  | Signed p k, Signed q l => payload_eqb p q && (k =? l)%string
  | Malformed s, Malformed r => (s =? r)%string
  | _, _ => false
  end.

(** The [id] claim of a token, when it has one. *)
Definition subject (t : token) : option Z :=
  match t with
  | Signed p _ => Some (id p)
  | Malformed _ => None
  end.

End Jwt.

(** ** The [User] table *)

Module Db.

(** A row of [User]. *)
Record User : Type := mkUser {
  id           : Z;
  email        : string;
  password     : Bcrypt.digest;
  rolId        : Z;
  refreshToken : option Jwt.token
}.

(** The table and its AUTO_INCREMENT counter. *)
Record t : Type := mkDb {
  users  : list User;
  nextId : Z
}.

(** [rows.length ? rows[0] : null] *)
Definition first_or_null (rows : list User) : option User :=
  match rows with
  | [] => None
  | r :: _ => Some r
  end.

(** [SELECT * FROM User WHERE email = ?] *)
Definition select_by_email (mail : string) (db : t) : list User :=
  filter (fun u => (email u =? mail)%string) (users db).

Definition slot_is (tok : Jwt.token) (u : User) : bool :=
  match refreshToken u with
  | Some s => Jwt.token_eqb s tok
  | None => false
  end.

(** [SELECT * FROM User WHERE refreshToken = ?] *)
Definition select_by_refreshToken (tok : Jwt.token) (db : t) : list User :=
  filter (slot_is tok) (users db).

Definition set_refreshToken (v : option Jwt.token) (u : User) : User :=
  mkUser (id u) (email u) (password u) (rolId u) v.

(** [UPDATE User SET refreshToken = ? WHERE id = ?] *)
Definition update_refreshToken (v : option Jwt.token) (uid : Z) (db : t) : t :=
  mkDb (map (fun u => if id u =? uid then set_refreshToken v u else u) (users db))
       (nextId db).

(** [INSERT INTO User (email, password, rolId) VALUES (?, ?, ?)]: the new
    row gets the next id and a NULL slot; the result is [insertId]. *)
Definition insert_user (mail : string) (pw : Bcrypt.digest) (role : Z) (db : t)
    : Z * t :=
  (nextId db,
   mkDb (users db ++ [mkUser (nextId db) mail pw role None]) (nextId db + 1)).

End Db.

(** ** Computations *)

(** [process.env] *)
Record ProcessEnv : Type := mkProcessEnv {
  JWT_SECRET         : option string;
  JWT_REFRESH_SECRET : option string
}.

(** What a call reads from outside the table. *)
Record Env : Type := mkEnv {
  now     : Z;
  salt    : string;
  process : ProcessEnv
}.

(** An [async] function body: reads [Env], updates the table, throws or
    returns. *)
Definition M (A : Type) : Type := Env -> Db.t -> (Js.JsError + A) * Db.t.

Definition ret {A} (a : A) : M A := fun _ db => (inr a, db).

Definition throw {A} (e : Js.JsError) : M A := fun _ db => (inl e, db).

Definition bind {A B} (m : M A) (k : A -> M B) : M B :=
  fun env db =>
    match m env db with
    | (inr a, db') => k a env db'
    | (inl e, db') => (inl e, db')
    end.

Definition ask : M Env := fun env db => (inr env, db).

(** A query that only reads. *)
Definition query {A} (q : Db.t -> A) : M A := fun _ db => (inr (q db), db).

(** A statement that writes. *)
Definition exec {A} (q : Db.t -> A * Db.t) : M A :=
  fun _ db => let (a, db') := q db in (inr a, db').

(** A library call that throws or returns. *)
Definition lift {A} (r : Js.JsError + A) : M A := fun _ db => (r, db).

(** Evaluation of an identifier in a module's scope. *)
Definition resolve (scope : list string) (ident : string) : M unit :=
  if existsb (String.eqb ident) scope then ret tt
  else throw (Js.ReferenceError ident).

Declare Scope js_scope.
Delimit Scope js_scope with js.
Notation "x <- m ;; k" := (bind m (fun x => k))
  (at level 61, m at next level, right associativity) : js_scope.
Notation "m ;;; k" := (bind m (fun _ => k))
  (at level 61, right associativity) : js_scope.
Local Open Scope js_scope.

(** ** Utils/token.utils.js *)

Module TokenUtils.

Definition generateAccessToken (user : Db.User) : M Jwt.token :=
  env <- ask ;;
  lift (Jwt.sign (Db.id user) (Db.email user) (Some (Db.rolId user))
          (JWT_SECRET (process env)) 900 (now env)).

Definition generateRefreshToken (user : Db.User) : M Jwt.token :=
  env <- ask ;;
  lift (Jwt.sign (Db.id user) (Db.email user) None
          (JWT_REFRESH_SECRET (process env)) 604800 (now env)).

End TokenUtils.

(** ** Repository/Auth.repository.js *)

Module AuthRepository.

(** The identifiers bound at the top of the module. *)
Definition scope : list string := ["pool"; "AuthRepository"].

Definition findByEmail (email : string) : M (option Db.User) :=
  resolve scope "pool" ;;;
  rows <- query (Db.select_by_email (Js.toLowerCase email)) ;;
  ret (Db.first_or_null rows).

Definition saveRefreshToken (userId : Z) (refreshToken : Jwt.token) : M unit :=
  resolve scope "pool" ;;;
  exec (fun db => (tt, Db.update_refreshToken (Some refreshToken) userId db)).

Definition findUserByRefreshToken (refreshToken : Jwt.token)
    : M (option Db.User) :=
  resolve scope "pool" ;;;
  rows <- query (Db.select_by_refreshToken refreshToken) ;;
  ret (Db.first_or_null rows).

Definition clearRefreshToken (userId : Z) : M unit :=
  resolve scope "pool" ;;;
  exec (fun db => (tt, Db.update_refreshToken None userId db)).

End AuthRepository.

(** ** Service/Auth.service.js *)

Module AuthService.

(** The identifiers bound at the top of the module: the three [require]s
    and the class. *)
Definition scope : list string :=
  ["bcrypt"; "jwt"; "generateAccessToken"; "generateRefreshToken";
   "AuthService"].

Record RegisterInput : Type := mkRegisterInput {
  reg_email    : string;
  reg_password : string;
  reg_rolId    : option Z
}.

Record Registered : Type := mkRegistered {
  new_id    : Z;
  new_email : string
}.

Record SafeUser : Type := mkSafeUser {
  su_id    : Z;
  su_email : string;
  su_rolId : Z
}.

Record LoginData : Type := mkLoginData {
  ld_message      : string;
  ld_accessToken  : Jwt.token;
  ld_refreshToken : Jwt.token;
  ld_user         : SafeUser
}.

Record TokenPair : Type := mkTokenPair {
  tp_accessToken  : Jwt.token;
  tp_refreshToken : Jwt.token
}.

Record Message : Type := mkMessage {
  msg : string
}.

(** The body of [register], run in a module whose top level binds the
    identifiers [sc]. *)
Definition register_in (sc : list string) (input : RegisterInput)
    : M Registered :=
  let email := reg_email input in
  let password := reg_password input in
  let rolId := reg_rolId input in
  existingUser <- AuthRepository.findByEmail email ;;
  match existingUser with
  | Some _ => throw (Js.Error "Email already in use")
  | None =>
      env <- ask ;;
      let hashedPassword := Bcrypt.hash password 10 (salt env) in
      resolve sc "pool" ;;;
      insertId <- exec (Db.insert_user (Js.toLowerCase email) hashedPassword
                          (Js.or_default rolId 1)) ;;
      ret (mkRegistered insertId email)
  end.

Definition register (input : RegisterInput) : M Registered :=
  register_in scope input.

Definition login (email password : string) : M LoginData :=
  user <- AuthRepository.findByEmail email ;;
  match user with
  | None => throw (Js.Error "Invalid credentials")
  | Some user =>
      if negb (Bcrypt.compare password (Db.password user))
      then throw (Js.Error "Invalid credentials")
      else
        accessToken <- TokenUtils.generateAccessToken user ;;
        refreshToken <- TokenUtils.generateRefreshToken user ;;
        AuthRepository.saveRefreshToken (Db.id user) refreshToken ;;;
        ret (mkLoginData "Login successful" accessToken refreshToken
               (mkSafeUser (Db.id user) (Db.email user) (Db.rolId user)))
  end.

Definition refreshToken (oldToken : Jwt.token) : M TokenPair :=
  user <- AuthRepository.findUserByRefreshToken oldToken ;;
  match user with
  | None => throw (Js.Error "Invalid refresh token")
  | Some user =>
      env <- ask ;;
      lift (Jwt.verify oldToken (JWT_REFRESH_SECRET (process env)) (now env)) ;;;
      accessToken <- TokenUtils.generateAccessToken user ;;
      newRefreshToken <- TokenUtils.generateRefreshToken user ;;
      AuthRepository.saveRefreshToken (Db.id user) newRefreshToken ;;;
      ret (mkTokenPair accessToken newRefreshToken)
  end.

Definition logout (userId : Z) : M Message :=
  AuthRepository.clearRefreshToken userId ;;;
  ret (mkMessage "Logged out successfully").

End AuthService.

(** ** Middleware/errorHandler.js and Controller/Auth.controller.js *)

(** The JSON bodies the authentication routes answer with. *)
Inductive Body : Type :=
| RegisteredBody (r : AuthService.Registered)
| LoginBody (d : AuthService.LoginData)
| TokensBody (p : AuthService.TokenPair)
| MessageBody (message : string)
| ErrorBody (status : string) (message : string).

Record Response : Type := mkResponse {
  status : Z;
  body   : Body
}.

Definition errorHandler (err : Js.JsError) : Response :=
  if Js.truthy (Js.statusCode err) then
    match Js.statusCode err with
    | Some code => mkResponse code (ErrorBody "error" (Js.message err))
    | None => mkResponse 500 (ErrorBody "error" "Internal Server Error")
    end
  else mkResponse 500 (ErrorBody "error" "Internal Server Error").

Module AuthController.

(** [try { ... res.status(code).json(...) } catch (error) { next(error) }],
    with [next(error)] reaching the application's error handler. *)
Definition respond {A} (m : M A) (code : Z) (json : A -> Body)
    : Env -> Db.t -> Response * Db.t :=
  fun env db =>
    match m env db with
    | (inr a, db') => (mkResponse code (json a), db')
    | (inl error, db') => (errorHandler error, db')
    end.

Definition register (body : AuthService.RegisterInput) :=
  respond (AuthService.register body) 201 RegisteredBody.

Definition login (email password : string) :=
  respond (AuthService.login email password) 200 LoginBody.

Definition refresh (refreshToken : Jwt.token) :=
  respond (AuthService.refreshToken refreshToken) 200 TokensBody.

Definition logout (userId : Z) :=
  respond (AuthService.logout userId) 200
    (fun _ => MessageBody "Logged out successfully").

End AuthController.

(** ** The error kinds of the session workflow

    The code throws plain errors; the kinds below name them the way the
    error taxonomy does: a duplicate e-mail is a conflict; bad credentials
    and an unmatched, invalid or expired refresh token are authentication
    failures; everything else is internal. *)

Inductive ErrorKind : Type :=
| ConflictError
| AuthenticationError
| InternalError.

Definition kind_of (e : Js.JsError) : ErrorKind :=
  if (Js.name e =? "Error")%string then
    if (Js.message e =? "Email already in use")%string then ConflictError
    else if (Js.message e =? "Invalid credentials")%string then AuthenticationError
    else if (Js.message e =? "Invalid refresh token")%string then AuthenticationError
    else InternalError
  else if (Js.name e =? "JsonWebTokenError")%string then AuthenticationError
  else if (Js.name e =? "TokenExpiredError")%string then AuthenticationError
  else InternalError.

(** ** Store predicates *)

(** Every occupied slot holds a token whose [id] claim is the id of the row
    that holds it. *)
Definition slots_owned (db : Db.t) : Prop :=
  forall u t, In u (Db.users db) ->
    Db.refreshToken u = Some t -> Jwt.subject t = Some (Db.id u).

(** No row holds a token. *)
Definition no_sessions (db : Db.t) : Prop :=
  forall u, In u (Db.users db) -> Db.refreshToken u = None.

(** The slot of every row with id [uid] is [v]. *)
Definition slot_of (uid : Z) (v : option Jwt.token) (db : Db.t) : Prop :=
  forall u, In u (Db.users db) -> Db.id u = uid -> Db.refreshToken u = v.

(** Number of rows stored under an e-mail. *)
Definition count_email (mail : string) (db : Db.t) : nat :=
  length (Db.select_by_email mail db).

(** A refresh token minted for the row with id [uid] at some moment. *)
Definition issued_to (uid : Z) (t : Jwt.token) : Prop :=
  exists user env db,
    Db.id user = uid /\
    fst (TokenUtils.generateRefreshToken user env db) = inr t.

(** The tables the session workflow can produce from one in which nobody
    is logged in. *)
Inductive reachable : Db.t -> Prop :=
| reach_init db :
    no_sessions db -> reachable db
| reach_register input env db :
    reachable db -> reachable (snd (AuthService.register input env db))
| reach_login email password env db :
    reachable db -> reachable (snd (AuthService.login email password env db))
| reach_refresh tok env db :
    reachable db -> reachable (snd (AuthService.refreshToken tok env db))
| reach_logout uid env db :
    reachable db -> reachable (snd (AuthService.logout uid env db)).

(** Two rows that differ at most in the slot. *)
Definition same_identity (u v : Db.User) : Prop :=
  Db.id v = Db.id u /\ Db.email v = Db.email u /\
  Db.password v = Db.password u /\ Db.rolId v = Db.rolId u.

(** ** Repository/User.repository.js, Service/User.service.js and the
    user controller

    The other module that reads and writes the [User] table; it is the one
    that inserts the rows the session workflow logs in. *)

(** The remaining statements on [User], with the result header the driver
    returns for a write. *)
Module UserDb.

Record ResultSetHeader : Type := mkResultSetHeader {
  insertId     : Z;
  affectedRows : Z
}.

(** [SELECT * FROM User WHERE id = ?] *)
Definition select_by_id (uid : Z) (db : Db.t) : list Db.User :=
  filter (fun u => Db.id u =? uid) (Db.users db).

(** [INSERT INTO User (email, password, rolId) VALUES (?, ?, ?)] *)
Definition insert (mail : string) (pw : Bcrypt.digest) (role : Z) (db : Db.t)
    : ResultSetHeader * Db.t :=
  let (newId, db') := Db.insert_user mail pw role db in
  (mkResultSetHeader newId 1, db').

(** [DELETE FROM User WHERE id = ?] *)
Definition delete_by_id (uid : Z) (db : Db.t) : ResultSetHeader * Db.t :=
  (mkResultSetHeader 0 (Z.of_nat (length (select_by_id uid db))),
   Db.mkDb (filter (fun u => negb (Db.id u =? uid)) (Db.users db))
           (Db.nextId db)).

Definition set_credentials (mail : string) (pw : Bcrypt.digest) (u : Db.User)
    : Db.User :=
  Db.mkUser (Db.id u) mail pw (Db.rolId u) (Db.refreshToken u).

(** [UPDATE User SET email = ?, password = ? WHERE id = ?]; the header
    counts the rows matched. *)
Definition update_credentials (mail : string) (pw : Bcrypt.digest) (uid : Z)
    (db : Db.t) : ResultSetHeader * Db.t :=
  (mkResultSetHeader 0 (Z.of_nat (length (select_by_id uid db))),
   Db.mkDb (map (fun u => if Db.id u =? uid then set_credentials mail pw u
                          else u) (Db.users db))
           (Db.nextId db)).

End UserDb.

Module UserRepository.

(** The identifiers bound at the top of the module. *)
Definition scope : list string := ["pool"; "bcryptjs"; "UserRepository"].

Record NewUser : Type := mkNewUser {
  email    : string;
  password : string;
  rolId    : Z
}.

Record UpdateData : Type := mkUpdateData {
  upd_email    : string;
  upd_password : string
}.

Definition findById (id : Z) : M (option Db.User) :=
  if id =? 0 then throw (Js.Error "Invalid ID")
  else
    resolve scope "pool" ;;;
    rows <- query (UserDb.select_by_id id) ;;
    ret (Db.first_or_null rows).

Definition findByEmail (email : string) : M (option Db.User) :=
  if (email =? "")%string then throw (Js.Error "Invalid email")
  else
    resolve scope "pool" ;;;
    rows <- query (Db.select_by_email (Js.toLowerCase email)) ;;
    ret (Db.first_or_null rows).

Definition createUser (input : NewUser) : M (option Db.User) :=
  let emailToLower := Js.toLowerCase (email input) in
  userExists <- findByEmail emailToLower ;;
  match userExists with
  | Some _ => throw (Js.Error "Email already in use")
  | None =>
      env <- ask ;;
      let hashedPassword := Bcrypt.hash (password input) 10 (salt env) in
      resolve scope "pool" ;;;
      result <- exec (UserDb.insert emailToLower hashedPassword (rolId input)) ;;
      if UserDb.affectedRows result =? 0
      then throw (Js.Error "Failed to create user")
      else findById (UserDb.insertId result)
  end.

Definition deleteById (id : Z) : M bool :=
  user <- findById id ;;
  match user with
  | None => throw (Js.Error "User not found")
  | Some _ =>
      resolve scope "pool" ;;;
      result <- exec (UserDb.delete_by_id id) ;;
      if UserDb.affectedRows result =? 0
      then throw (Js.Error "Failed to delete user")
      else ret true
  end.

Definition updateById (id : Z) (data : UpdateData) : M (option Db.User) :=
  user <- findById id ;;
  match user with
  | None => throw (Js.Error "User not found")
  | Some _ =>
      let emailToLower := Js.toLowerCase (upd_email data) in
      env <- ask ;;
      let hashedPassword := Bcrypt.hash (upd_password data) 10 (salt env) in
      resolve scope "pool" ;;;
      result <- exec (UserDb.update_credentials emailToLower hashedPassword id) ;;
      if UserDb.affectedRows result =? 0
      then throw (Js.Error "Failed to update user")
      else findById id
  end.

End UserRepository.

Module UserService.

Definition createUser (userData : UserRepository.NewUser) :=
  UserRepository.createUser userData.

Definition findById (userId : Z) := UserRepository.findById userId.

Definition updateById (userId : Z) (updateData : UserRepository.UpdateData) :=
  UserRepository.updateById userId updateData.

Definition deleteById (userId : Z) := UserRepository.deleteById userId.

End UserService.

Module UserController.

(** What [POST /users] answers: a status with the row handed to
    [res.json], or what the error handler answers. *)
Inductive Answer : Type :=
| RowJson (status : Z) (row : option Db.User)
| Handled (r : Response).

Definition create (body : UserRepository.NewUser)
    : Env -> Db.t -> Answer * Db.t :=
  fun env db =>
    match UserService.createUser body env db with
    | (inr newUser, db') => (RowJson 201 newUser, db')
    | (inl error, db') => (Handled (errorHandler error), db')
    end.

End UserController.

(** ** Calls of the session workflow, as data *)

Inductive Call : Type :=
| CallRegister (input : AuthService.RegisterInput)
| CallLogin (email password : string)
| CallRefresh (oldToken : Jwt.token)
| CallLogout (userId : Z).

(** The error a computation throws, if it throws, and the table it leaves. *)
Definition outcome {A} (r : (Js.JsError + A) * Db.t)
    : option Js.JsError * Db.t :=
  match r with
  | (inl e, db') => (Some e, db')
  | (inr _, db') => (None, db')
  end.

Definition run_call (c : Call) (env : Env) (db : Db.t)
    : option Js.JsError * Db.t :=
  match c with
  | CallRegister input => outcome (AuthService.register input env db)
  | CallLogin email password => outcome (AuthService.login email password env db)
  | CallRefresh oldToken => outcome (AuthService.refreshToken oldToken env db)
  | CallLogout userId => outcome (AuthService.logout userId env db)
  end.

(** What the route of a call answers. *)
Definition answer_call (c : Call) (env : Env) (db : Db.t) : Response :=
  match c with
  | CallRegister input => fst (AuthController.register input env db)
  | CallLogin email password => fst (AuthController.login email password env db)
  | CallRefresh oldToken => fst (AuthController.refresh oldToken env db)
  | CallLogout userId => fst (AuthController.logout userId env db)
  end.

(** The AUTO_INCREMENT counter is positive and above every stored id. *)
Definition ids_fresh (db : Db.t) : Prop :=
  0 < Db.nextId db /\
  forall u, In u (Db.users db) -> 0 < Db.id u < Db.nextId db.

(** No two rows share an e-mail. *)
Definition emails_unique (db : Db.t) : Prop :=
  NoDup (map Db.email (Db.users db)).

(** Both secrets are set and not empty. *)
Definition configured (env : Env) (ka kr : string) : Prop :=
  JWT_SECRET (process env) = Some ka /\
  JWT_REFRESH_SECRET (process env) = Some kr /\
  ka <> "" /\ kr <> "".

(** The row [createUser] inserts. *)
Definition inserted_row (input : UserRepository.NewUser) (env : Env)
    (db : Db.t) : Db.User :=
  Db.mkUser (Db.nextId db) (Js.toLowerCase (UserRepository.email input))
    (Bcrypt.Digest 10 (salt env) (UserRepository.password input))
    (UserRepository.rolId input) None.

Definition after_insert (input : UserRepository.NewUser) (env : Env)
    (db : Db.t) : Db.t :=
  Db.mkDb (Db.users db ++ [inserted_row input env db]) (Db.nextId db + 1).

(** The table after [updateById] has rewritten the rows with id [id]. *)
Definition after_update (id : Z) (data : UserRepository.UpdateData) (env : Env)
    (db : Db.t) : Db.t :=
  snd (UserDb.update_credentials
         (Js.toLowerCase (UserRepository.upd_email data))
         (Bcrypt.hash (UserRepository.upd_password data) 10 (salt env)) id db).

(** The table after [deleteById] has removed the rows with id [id]. *)
Definition after_delete (id : Z) (db : Db.t) : Db.t :=
  snd (UserDb.delete_by_id id db).

(** ** A concrete deployment, for the examples *)

Definition secrets : ProcessEnv :=
  mkProcessEnv (Some "access-secret") (Some "refresh-secret").

(** A call made at clock [clock]. *)
Definition at_second (clock : Z) : Env := mkEnv clock "salt" secrets.

Definition alice : Db.User :=
  Db.mkUser 1 "a@b.com" (Bcrypt.Digest 10 "salt" "pw123456") 1 None.

Definition bob : Db.User :=
  Db.mkUser 2 "bob@x.com" (Bcrypt.Digest 10 "salt" "hunter22") 1 None.

Definition db0 : Db.t := Db.mkDb [alice; bob] 3.

(** The table after alice logs in at second 100, and the token she gets. *)
Definition db_logged_in : Db.t :=
  snd (AuthService.login "A@B.com" "pw123456" (at_second 100) db0).

Definition alice_token (clock : Z) : Jwt.token :=
  Jwt.Signed (Jwt.mkPayload 1 "a@b.com" None clock (clock + 604800))
    "refresh-secret".

(** Unfolds the sequencing of a method body down to its library calls. *)
Ltac step_body :=
  cbv [bind ask lift ret throw TokenUtils.generateAccessToken
       TokenUtils.generateRefreshToken].

(** * Properties *)

(** ** Equality tests *)

Lemma option_Z_eqb_eq a b : Jwt.option_Z_eqb a b = true <-> a = b.
Proof.
  destruct a as [x|], b as [y|]; simpl; try (split; congruence).
  rewrite Z.eqb_eq. split; congruence.
Qed.

Lemma payload_eqb_eq p q : Jwt.payload_eqb p q = true <-> p = q.
Proof.
  destruct p as [i1 m1 r1 a1 x1], q as [i2 m2 r2 a2 x2].
  unfold Jwt.payload_eqb; simpl.
  rewrite !andb_true_iff, !Z.eqb_eq, String.eqb_eq, option_Z_eqb_eq.
  split.
  - intros [[[[-> ->] ->] ->] ->]. reflexivity.
  - intros H. injection H as -> -> -> -> ->. repeat split.
Qed.

Lemma token_eqb_eq a b : Jwt.token_eqb a b = true <-> a = b.
Proof.
  destruct a as [p k|s], b as [q l|r]; simpl; try (split; congruence).
  - rewrite andb_true_iff, payload_eqb_eq, String.eqb_eq.
    split; [intros [-> ->]; reflexivity | intros H; injection H as -> ->; auto].
  - rewrite String.eqb_eq. split; congruence.
Qed.

Lemma token_eqb_refl a : Jwt.token_eqb a a = true.
Proof. apply token_eqb_eq. reflexivity. Qed.

Lemma slot_is_true tok u :
  Db.slot_is tok u = true <-> Db.refreshToken u = Some tok.
Proof.
  unfold Db.slot_is. destruct (Db.refreshToken u) as [s|].
  - rewrite token_eqb_eq. split; congruence.
  - split; discriminate.
Qed.

(** ** The repository calls, run *)

Lemma findByEmail_run email env db :
  AuthRepository.findByEmail email env db =
  (inr (Db.first_or_null (Db.select_by_email (Js.toLowerCase email) db)), db).
Proof. reflexivity. Qed.

Lemma findUserByRefreshToken_run tok env db :
  AuthRepository.findUserByRefreshToken tok env db =
  (inr (Db.first_or_null (Db.select_by_refreshToken tok db)), db).
Proof. reflexivity. Qed.

Lemma saveRefreshToken_run uid tok env db :
  AuthRepository.saveRefreshToken uid tok env db =
  (inr tt, Db.update_refreshToken (Some tok) uid db).
Proof. reflexivity. Qed.

Lemma clearRefreshToken_run uid env db :
  AuthRepository.clearRefreshToken uid env db =
  (inr tt, Db.update_refreshToken None uid db).
Proof. reflexivity. Qed.

Lemma logout_run uid env db :
  AuthService.logout uid env db =
  (inr (AuthService.mkMessage "Logged out successfully"),
   Db.update_refreshToken None uid db).
Proof. reflexivity. Qed.

(** ** Selections and updates *)

Lemma first_or_null_filter_some (f : Db.User -> bool) rows u :
  Db.first_or_null (filter f rows) = Some u -> In u rows /\ f u = true.
Proof.
  intros H. apply filter_In.
  destruct (filter f rows) as [|r rest] eqn:E; simpl in H; [discriminate|].
  injection H as ->. left. reflexivity.
Qed.

Lemma first_or_null_filter_none (f : Db.User -> bool) rows :
  Db.first_or_null (filter f rows) = None <->
  (forall u, In u rows -> f u = false).
Proof.
  split.
  - intros H u Hin. destruct (f u) eqn:E; [|reflexivity].
    assert (Hf : In u (filter f rows)) by (apply filter_In; auto).
    destruct (filter f rows); [contradiction | discriminate].
  - intros H. destruct (filter f rows) as [|r rest] eqn:E; [reflexivity|].
    assert (Hr : In r (filter f rows)) by (rewrite E; left; reflexivity).
    apply filter_In in Hr. destruct Hr as [Hin Hf].
    rewrite (H r Hin) in Hf. discriminate.
Qed.

Lemma first_or_null_filter_found (f : Db.User -> bool) rows u :
  In u rows -> f u = true -> exists v, Db.first_or_null (filter f rows) = Some v.
Proof.
  intros Hin Hf.
  destruct (Db.first_or_null (filter f rows)) as [v|] eqn:E; [eauto|].
  rewrite first_or_null_filter_none in E. rewrite (E u Hin) in Hf. discriminate.
Qed.

Lemma in_update v uid db u' :
  In u' (Db.users (Db.update_refreshToken v uid db)) <->
  exists u, In u (Db.users db) /\
    u' = (if Db.id u =? uid then Db.set_refreshToken v u else u).
Proof.
  unfold Db.update_refreshToken; simpl. rewrite in_map_iff.
  split; intros [u [H1 H2]]; exists u; split; auto.
Qed.

Lemma update_no_match v uid db :
  (forall u, In u (Db.users db) -> Db.id u <> uid) ->
  Db.update_refreshToken v uid db = db.
Proof.
  destruct db as [rows n]. unfold Db.update_refreshToken; simpl. intros H.
  f_equal. induction rows as [|r rows IH]; simpl; [reflexivity|].
  destruct (Z.eqb_spec (Db.id r) uid) as [E|E].
  - exfalso. apply (H r); simpl; auto.
  - f_equal. apply IH. intros u Hu. apply H. simpl; auto.
Qed.

Lemma update_slot_of v uid db :
  slot_of uid v (Db.update_refreshToken v uid db).
Proof.
  intros u' Hin Hid. apply in_update in Hin. destruct Hin as [u [_ ->]].
  destruct (Z.eqb_spec (Db.id u) uid) as [E|E]; simpl in *; [reflexivity|].
  contradiction.
Qed.

Lemma update_idempotent v uid db :
  Db.update_refreshToken v uid (Db.update_refreshToken v uid db) =
  Db.update_refreshToken v uid db.
Proof.
  destruct db as [rows n]. unfold Db.update_refreshToken; simpl. f_equal.
  rewrite map_map. apply map_ext. intros u.
  destruct (Z.eqb_spec (Db.id u) uid) as [E|E]; simpl.
  - rewrite E, Z.eqb_refl. reflexivity.
  - destruct (Z.eqb_spec (Db.id u) uid); [contradiction | reflexivity].
Qed.

(** ** The service calls, by cases *)

Lemma sign_inr uid mail role secret life clock tok :
  Jwt.sign uid mail role secret life clock = inr tok ->
  exists key, secret = Some key /\ key <> "" /\
    tok = Jwt.Signed (Jwt.mkPayload uid mail role clock (clock + life)) key.
Proof.
  unfold Jwt.sign. destruct secret as [key|]; [|discriminate].
  destruct (String.eqb_spec key ""); [discriminate|].
  intros H. injection H as <-. eauto.
Qed.

Lemma refreshToken_unmatched tok env db :
  (forall u, In u (Db.users db) -> Db.slot_is tok u = false) ->
  AuthService.refreshToken tok env db =
  (inl (Js.Error "Invalid refresh token"), db).
Proof.
  intros H. unfold AuthService.refreshToken, bind.
  rewrite findUserByRefreshToken_run.
  unfold Db.select_by_refreshToken.
  apply first_or_null_filter_none in H. rewrite H. reflexivity.
Qed.

Lemma refreshToken_inr tok env db pair db' :
  AuthService.refreshToken tok env db = (inr pair, db') ->
  exists user p,
    Db.first_or_null (Db.select_by_refreshToken tok db) = Some user /\
    Jwt.verify tok (JWT_REFRESH_SECRET (process env)) (now env) = inr p /\
    Jwt.sign (Db.id user) (Db.email user) (Some (Db.rolId user))
      (JWT_SECRET (process env)) 900 (now env) = inr (AuthService.tp_accessToken pair) /\
    Jwt.sign (Db.id user) (Db.email user) None
      (JWT_REFRESH_SECRET (process env)) 604800 (now env)
      = inr (AuthService.tp_refreshToken pair) /\
    db' = Db.update_refreshToken (Some (AuthService.tp_refreshToken pair))
            (Db.id user) db.
Proof.
  unfold AuthService.refreshToken, bind.
  rewrite findUserByRefreshToken_run.
  destruct (Db.first_or_null (Db.select_by_refreshToken tok db)) as [user|];
    [|discriminate].
  step_body.
  destruct (Jwt.verify tok _ _) as [e|p] eqn:Hv; [discriminate|].
  destruct (Jwt.sign (Db.id user) (Db.email user) (Some (Db.rolId user))
              (JWT_SECRET (process env)) 900 (now env))
    as [e|acc] eqn:Ha; [discriminate|].
  destruct (Jwt.sign (Db.id user) (Db.email user) None
              (JWT_REFRESH_SECRET (process env)) 604800 (now env))
    as [e|new] eqn:Hr; [discriminate|].
  rewrite saveRefreshToken_run.
  intros H. injection H as <- <-.
  exists user, p. simpl. auto.
Qed.

Lemma refreshToken_inl tok env db e db' :
  AuthService.refreshToken tok env db = (inl e, db') -> db' = db.
Proof.
  unfold AuthService.refreshToken, bind.
  rewrite findUserByRefreshToken_run.
  destruct (Db.first_or_null (Db.select_by_refreshToken tok db)) as [user|];
    [|unfold throw; congruence].
  step_body.
  destruct (Jwt.verify tok _ _) as [e1|p]; [congruence|].
  destruct (Jwt.sign (Db.id user) (Db.email user) (Some (Db.rolId user))
              (JWT_SECRET (process env)) 900 (now env))
    as [e1|acc]; [congruence|].
  destruct (Jwt.sign (Db.id user) (Db.email user) None
              (JWT_REFRESH_SECRET (process env)) 604800 (now env))
    as [e1|new]; [congruence|].
  rewrite saveRefreshToken_run. discriminate.
Qed.

Lemma issued_subject uid tok : issued_to uid tok -> Jwt.subject tok = Some uid.
Proof.
  intros [user [env [db [Hid H]]]].
  cbv [bind ask lift TokenUtils.generateRefreshToken fst] in H.
  apply sign_inr in H. destruct H as [key [_ [_ ->]]]. simpl. congruence.
Qed.

(** ** The slot invariant *)

Lemma no_sessions_owned db : no_sessions db -> slots_owned db.
Proof. intros H u tok Hin Hs. rewrite (H u Hin) in Hs. discriminate. Qed.

Lemma update_owned v uid db :
  slots_owned db ->
  (forall tok, v = Some tok -> Jwt.subject tok = Some uid) ->
  slots_owned (Db.update_refreshToken v uid db).
Proof.
  intros Hdb Hv u' tok Hin Hs. apply in_update in Hin.
  destruct Hin as [u [Hin ->]].
  destruct (Z.eqb_spec (Db.id u) uid) as [E|E]; simpl in *.
  - rewrite E. apply Hv. exact Hs.
  - apply Hdb; assumption.
Qed.

Lemma no_holder_after_update v uid tok db :
  slots_owned db -> Jwt.subject tok = Some uid -> v <> Some tok ->
  forall u, In u (Db.users (Db.update_refreshToken v uid db)) ->
    Db.slot_is tok u = false.
Proof.
  intros Hdb Hsub Hv u' Hin. apply in_update in Hin.
  destruct Hin as [u [Hin ->]].
  destruct (Db.slot_is tok _) eqn:Hs; [|reflexivity].
  apply slot_is_true in Hs.
  destruct (Z.eqb_spec (Db.id u) uid) as [E|E]; simpl in Hs.
  - contradiction.
  - specialize (Hdb u tok Hin Hs). congruence.
Qed.

Lemma logout_owned uid env db :
  slots_owned db -> slots_owned (snd (AuthService.logout uid env db)).
Proof.
  intros H. rewrite logout_run. simpl. apply update_owned; [exact H|discriminate].
Qed.

Lemma refreshToken_owned tok env db :
  slots_owned db -> slots_owned (snd (AuthService.refreshToken tok env db)).
Proof.
  intros H.
  destruct (AuthService.refreshToken tok env db) as [[e|pair] db'] eqn:E; simpl.
  - apply refreshToken_inl in E. subst. exact H.
  - apply refreshToken_inr in E.
    destruct E as [user [p [_ [_ [_ [Hr ->]]]]]].
    apply update_owned; [exact H|]. intros t Ht. injection Ht as <-.
    apply sign_inr in Hr. destruct Hr as [key [_ [_ ->]]]. reflexivity.
Qed.

(** ** Example runs *)

Example toLowerCase_mixed : Js.toLowerCase "User@X.com" = "user@x.com".
Proof. reflexivity. Qed.

Example login_alice :
  AuthService.login "A@B.com" "pw123456" (at_second 100) db0 =
  (inr (AuthService.mkLoginData "Login successful"
          (Jwt.Signed (Jwt.mkPayload 1 "a@b.com" (Some 1) 100 1000)
             "access-secret")
          (alice_token 100)
          (AuthService.mkSafeUser 1 "a@b.com" 1)),
   Db.mkDb [Db.set_refreshToken (Some (alice_token 100)) alice; bob] 3).
Proof. reflexivity. Qed.

Example refresh_one_second_later :
  AuthService.refreshToken (alice_token 100) (at_second 101) db_logged_in =
  (inr (AuthService.mkTokenPair
          (Jwt.Signed (Jwt.mkPayload 1 "a@b.com" (Some 1) 101 1001)
             "access-secret")
          (alice_token 101)),
   Db.mkDb [Db.set_refreshToken (Some (alice_token 101)) alice; bob] 3).
Proof. reflexivity. Qed.

Example refresh_with_access_token :
  AuthService.refreshToken
    (Jwt.Signed (Jwt.mkPayload 1 "a@b.com" (Some 1) 100 1000) "access-secret")
    (at_second 101) db_logged_in =
  (inl (Js.Error "Invalid refresh token"), db_logged_in).
Proof. reflexivity. Qed.

Example refresh_after_logout :
  AuthService.refreshToken (alice_token 100) (at_second 102)
    (snd (AuthService.logout 1 (at_second 101) db_logged_in)) =
  (inl (Js.Error "Invalid refresh token"), db0).
Proof. reflexivity. Qed.

Example errorHandler_custom :
  errorHandler (Js.mkJsError "Error" "Invalid input" (Some 400)) =
  mkResponse 400 (ErrorBody "error" "Invalid input").
Proof. reflexivity. Qed.

Lemma db_logged_in_eq :
  db_logged_in =
  Db.mkDb [Db.set_refreshToken (Some (alice_token 100)) alice; bob] 3.
Proof. reflexivity. Qed.

Lemma db_logged_in_owned : slots_owned db_logged_in.
Proof.
  rewrite db_logged_in_eq. intros u tok [<-|[<-|[]]] H; simpl in H.
  - injection H as <-. reflexivity.
  - discriminate.
Qed.

(** ** Logout *)

(** C9. Logout reports success for every user id, also when no row has that
    id (the table is then unchanged); a second logout reports the same
    success and leaves the table as the first one left it; after either
    call every row with that id has an empty slot. *)
Theorem logout_idempotent_noop (uid : Z) (env env' : Env) (db : Db.t) :
  let ok := inr (AuthService.mkMessage "Logged out successfully") in
  let db1 := snd (AuthService.logout uid env db) in
  fst (AuthService.logout uid env db) = ok /\
  ((forall u, In u (Db.users db) -> Db.id u <> uid) -> db1 = db) /\
  AuthService.logout uid env' db1 = (ok, db1) /\
  slot_of uid None db1 /\
  fst (AuthController.logout uid env db) =
    mkResponse 200 (MessageBody "Logged out successfully").
Proof.
  cbv zeta. rewrite !logout_run. simpl fst. simpl snd.
  repeat split.
  - apply update_no_match.
  - rewrite update_idempotent. reflexivity.
  - apply update_slot_of.
Qed.

Lemma logout_idempotent_noop_witness :
  snd (AuthService.logout 7 (at_second 5) db_logged_in) = db_logged_in /\
  slot_of 1 None (snd (AuthService.logout 1 (at_second 5) db_logged_in)).
Proof.
  split.
  - apply (logout_idempotent_noop 7 (at_second 5) (at_second 6) db_logged_in).
    rewrite db_logged_in_eq. intros u [<-|[<-|[]]]; simpl; lia.
  - apply (logout_idempotent_noop 1 (at_second 5) (at_second 6) db_logged_in).
Defined.

(** C10. Logout changes nothing but the slot of the rows whose id is the
    given one, which it empties: the table keeps its rows in place, each
    with the same id, e-mail, password hash and role; rows with another id
    are the same rows; the id counter is untouched. *)
Theorem logout_frame (uid : Z) (env : Env) (db : Db.t) :
  let db' := snd (AuthService.logout uid env db) in
  Db.nextId db' = Db.nextId db /\
  Forall2 (fun u u' =>
             same_identity u u' /\
             (Db.id u = uid -> Db.refreshToken u' = None) /\
             (Db.id u <> uid -> u' = u))
          (Db.users db) (Db.users db').
Proof.
  cbv zeta. rewrite logout_run. simpl. split; [reflexivity|].
  induction (Db.users db) as [|u rows IH]; simpl; constructor; [|exact IH].
  destruct (Z.eqb_spec (Db.id u) uid) as [E|E].
  - repeat split. intros H. contradiction.
  - repeat split. intros H. contradiction.
Qed.

Lemma logout_frame_witness :
  Forall2 (fun u u' =>
             same_identity u u' /\
             (Db.id u = 1 -> Db.refreshToken u' = None) /\
             (Db.id u <> 1 -> u' = u))
          (Db.users db_logged_in)
          (Db.users (snd (AuthService.logout 1 (at_second 5) db_logged_in))).
Proof. apply (logout_frame 1 (at_second 5) db_logged_in). Defined.

(** C2. In a table whose slots hold their holders' own tokens, once
    logout of a user has completed every row of that user has an empty
    slot, and refresh with any refresh token minted for that user throws
    "Invalid refresh token", an authentication failure, at any later
    moment. *)
Theorem logout_revokes (u : Db.User) (env : Env) (db : Db.t) :
  slots_owned db ->
  In u (Db.users db) ->
  let db1 := snd (AuthService.logout (Db.id u) env db) in
  fst (AuthService.logout (Db.id u) env db) =
    inr (AuthService.mkMessage "Logged out successfully") /\
  slot_of (Db.id u) None db1 /\
  forall tok env',
    issued_to (Db.id u) tok ->
    AuthService.refreshToken tok env' db1 =
      (inl (Js.Error "Invalid refresh token"), db1) /\
    kind_of (Js.Error "Invalid refresh token") = AuthenticationError.
Proof.
  intros Hown Hin. cbv zeta. rewrite logout_run. simpl fst. simpl snd.
  split; [reflexivity|]. split; [apply update_slot_of|].
  intros tok env' Hiss. split; [|reflexivity].
  apply refreshToken_unmatched.
  apply no_holder_after_update;
    [exact Hown | apply issued_subject; exact Hiss | discriminate].
Qed.

Lemma alice_token_issued clock : issued_to 1 (alice_token clock).
Proof. exists alice, (at_second clock), db0. split; reflexivity. Qed.

Lemma logout_revokes_witness :
  AuthService.refreshToken (alice_token 100) (at_second 101)
    (snd (AuthService.logout 1 (at_second 100) db_logged_in)) =
  (inl (Js.Error "Invalid refresh token"),
   snd (AuthService.logout 1 (at_second 100) db_logged_in)).
Proof.
  apply (logout_revokes (Db.set_refreshToken (Some (alice_token 100)) alice)
           (at_second 100) db_logged_in db_logged_in_owned).
  - rewrite db_logged_in_eq. left. reflexivity.
  - apply alice_token_issued.
Defined.

(** ** Refresh *)

Lemma verify_error_kind tok secret clock e :
  Jwt.verify tok secret clock = inl e -> kind_of e = AuthenticationError.
Proof.
  unfold Jwt.verify. destruct tok as [p key|s].
  - destruct (Js.truthy_string secret);
      [|intros H; injection H as <-; reflexivity].
    destruct secret as [s|]; [|intros H; injection H as <-; reflexivity].
    destruct (key =? s)%string; [|intros H; injection H as <-; reflexivity].
    destruct (clock >=? Jwt.exp p); [|discriminate].
    intros H; injection H as <-; reflexivity.
  - intros H; injection H as <-; reflexivity.
Qed.

(** The new refresh token differs from the presented one as soon as the
    clock is not the second at which the presented one was issued. *)
Lemma rotation_fresh_after_issue_second tok env db pair db' :
  AuthService.refreshToken tok env db = (inr pair, db') ->
  (forall p key, tok = Jwt.Signed p key -> Jwt.iat p <> now env) ->
  AuthService.tp_refreshToken pair <> tok.
Proof.
  intros Hrun Hclock Heq. apply refreshToken_inr in Hrun.
  destruct Hrun as [user [p [_ [_ [_ [Hr _]]]]]].
  apply sign_inr in Hr. destruct Hr as [key [_ [_ Hnew]]].
  rewrite Heq in Hnew. apply (Hclock _ _ Hnew). reflexivity.
Qed.

(** C1, as stated, fails: a refresh made in the second in which the
    presented token was issued mints that very token again, so the slot
    still holds it and it refreshes once more. *)
Lemma rotation_same_second_counterexample :
  ~ (forall (env env2 : Env) (db db1 : Db.t) (u : Db.User)
            (t0 : Jwt.token) (pair : AuthService.TokenPair),
        slots_owned db ->
        In u (Db.users db) ->
        Db.refreshToken u = Some t0 ->
        AuthService.refreshToken t0 env db = (inr pair, db1) ->
        slot_of (Db.id u) (Some (AuthService.tp_refreshToken pair)) db1 /\
        exists e, fst (AuthService.refreshToken t0 env2 db1) = inl e /\
                  kind_of e = AuthenticationError).
Proof.
  intros claim.
  destruct (claim (at_second 100) (at_second 101) db_logged_in db_logged_in
              (Db.set_refreshToken (Some (alice_token 100)) alice)
              (alice_token 100)
              (AuthService.mkTokenPair
                 (Jwt.Signed (Jwt.mkPayload 1 "a@b.com" (Some 1) 100 1000)
                    "access-secret")
                 (alice_token 100))
              db_logged_in_owned)
    as [_ [e [He _]]].
  - rewrite db_logged_in_eq. left. reflexivity.
  - reflexivity.
  - reflexivity.
  - vm_compute in He. discriminate.
Qed.

(** C1, amended. In a table whose slots hold their holders' own tokens, if
    a user's slot holds [t0] and refresh of [t0] returns a pair whose
    refresh token [t1] is not [t0] itself, then every row of that user
    holds [t1] afterwards and any later refresh of [t0] throws "Invalid
    refresh token", an authentication failure, leaving the table as it
    is. *)
Theorem refresh_rotates (env : Env) (db db1 : Db.t) (u : Db.User)
    (t0 : Jwt.token) (pair : AuthService.TokenPair) :
  slots_owned db ->
  In u (Db.users db) ->
  Db.refreshToken u = Some t0 ->
  AuthService.refreshToken t0 env db = (inr pair, db1) ->
  AuthService.tp_refreshToken pair <> t0 ->
  slot_of (Db.id u) (Some (AuthService.tp_refreshToken pair)) db1 /\
  forall env2,
    AuthService.refreshToken t0 env2 db1 =
      (inl (Js.Error "Invalid refresh token"), db1) /\
    kind_of (Js.Error "Invalid refresh token") = AuthenticationError.
Proof.
  intros Hown Hin Hslot Hrun Hfresh.
  apply refreshToken_inr in Hrun.
  destruct Hrun as [user [p [Hfound [_ [_ [_ ->]]]]]].
  apply first_or_null_filter_some in Hfound. destruct Hfound as [Huser Hheld].
  apply slot_is_true in Hheld.
  assert (Hid : Db.id user = Db.id u).
  { pose proof (Hown u t0 Hin Hslot) as H1.
    pose proof (Hown user t0 Huser Hheld) as H2. congruence. }
  split.
  - rewrite <- Hid. apply update_slot_of.
  - intros env2. split; [|reflexivity].
    apply refreshToken_unmatched.
    apply no_holder_after_update; [exact Hown | exact (Hown user t0 Huser Hheld) |].
    intros H. injection H as H. contradiction.
Qed.

Lemma refresh_rotates_witness :
  slot_of 1 (Some (alice_token 101))
    (snd (AuthService.refreshToken (alice_token 100) (at_second 101)
            db_logged_in)) /\
  forall env2,
    AuthService.refreshToken (alice_token 100) env2
      (snd (AuthService.refreshToken (alice_token 100) (at_second 101)
              db_logged_in)) =
      (inl (Js.Error "Invalid refresh token"),
       snd (AuthService.refreshToken (alice_token 100) (at_second 101)
              db_logged_in)) /\
    kind_of (Js.Error "Invalid refresh token") = AuthenticationError.
Proof.
  apply (refresh_rotates (at_second 101) db_logged_in
           (snd (AuthService.refreshToken (alice_token 100) (at_second 101)
                   db_logged_in))
           (Db.set_refreshToken (Some (alice_token 100)) alice)
           (alice_token 100)
           (AuthService.mkTokenPair
              (Jwt.Signed (Jwt.mkPayload 1 "a@b.com" (Some 1) 101 1001)
                 "access-secret")
              (alice_token 101))
           db_logged_in_owned).
  - rewrite db_logged_in_eq. left. reflexivity.
  - reflexivity.
  - reflexivity.
  - simpl. discriminate.
Defined.

(** C4. When refresh finds a row whose slot equals the presented token but
    the token fails verification against the refresh secret, refresh
    throws the verification error, an authentication failure, and the
    table, the slot included, is what it was. *)
Theorem refresh_verification_failure_atomic (tok : Jwt.token) (env : Env)
    (db : Db.t) (user : Db.User) (e : Js.JsError) :
  fst (AuthRepository.findUserByRefreshToken tok env db) = inr (Some user) ->
  Jwt.verify tok (JWT_REFRESH_SECRET (process env)) (now env) = inl e ->
  AuthService.refreshToken tok env db = (inl e, db) /\
  kind_of e = AuthenticationError /\
  In user (Db.users db) /\ Db.refreshToken user = Some tok.
Proof.
  intros Hfind Hver. rewrite findUserByRefreshToken_run in Hfind.
  simpl in Hfind. injection Hfind as Hfind.
  split; [|split; [exact (verify_error_kind _ _ _ _ Hver)|]].
  - unfold AuthService.refreshToken, bind.
    rewrite findUserByRefreshToken_run, Hfind. step_body.
    rewrite Hver. reflexivity.
  - apply first_or_null_filter_some in Hfind. destruct Hfind as [H1 H2].
    apply slot_is_true in H2. auto.
Qed.

Lemma refresh_verification_failure_atomic_witness :
  AuthService.refreshToken (alice_token 100) (at_second 604900) db_logged_in =
  (inl Jwt.TokenExpiredError, db_logged_in).
Proof.
  apply (refresh_verification_failure_atomic (alice_token 100)
           (at_second 604900) db_logged_in
           (Db.set_refreshToken (Some (alice_token 100)) alice)
           Jwt.TokenExpiredError); reflexivity.
Defined.

(** ** Login *)

Lemma login_unknown email password env db :
  Db.first_or_null (Db.select_by_email (Js.toLowerCase email) db) = None ->
  AuthService.login email password env db =
  (inl (Js.Error "Invalid credentials"), db).
Proof.
  intros H. unfold AuthService.login, bind.
  rewrite findByEmail_run, H. reflexivity.
Qed.

Lemma login_wrong_password email password env db user :
  Db.first_or_null (Db.select_by_email (Js.toLowerCase email) db) = Some user ->
  Bcrypt.compare password (Db.password user) = false ->
  AuthService.login email password env db =
  (inl (Js.Error "Invalid credentials"), db).
Proof.
  intros H Hcmp. unfold AuthService.login, bind.
  rewrite findByEmail_run, H, Hcmp. reflexivity.
Qed.

Lemma login_inl email password env db e db' :
  AuthService.login email password env db = (inl e, db') ->
  db' = db /\ Js.statusCode e = None.
Proof.
  unfold AuthService.login, bind. rewrite findByEmail_run.
  destruct (Db.first_or_null _) as [user|]; cbv [throw];
    [|intros H; inversion H; subst; auto].
  destruct (Bcrypt.compare password (Db.password user));
    cbv [negb]; [|intros H; inversion H; subst; auto].
  step_body.
  destruct (Jwt.sign (Db.id user) (Db.email user) (Some (Db.rolId user))
              (JWT_SECRET (process env)) 900 (now env))
    as [e1|acc] eqn:Ha.
  { cbv beta iota zeta. intros H; injection H as <- <-. split; [reflexivity|].
    unfold Jwt.sign in Ha. destruct (JWT_SECRET (process env)) as [k|].
    - destruct (k =? "")%string; [|discriminate]. injection Ha as <-. reflexivity.
    - injection Ha as <-. reflexivity. }
  destruct (Jwt.sign (Db.id user) (Db.email user) None
              (JWT_REFRESH_SECRET (process env)) 604800 (now env))
    as [e1|new] eqn:Hr.
  { cbv beta iota zeta. intros H; injection H as <- <-. split; [reflexivity|].
    unfold Jwt.sign in Hr. destruct (JWT_REFRESH_SECRET (process env)) as [k|].
    - destruct (k =? "")%string; [|discriminate]. injection Hr as <-. reflexivity.
    - injection Hr as <-. reflexivity. }
  rewrite saveRefreshToken_run. discriminate.
Qed.

Lemma login_inr email password env db d db' :
  AuthService.login email password env db = (inr d, db') ->
  exists user,
    Db.first_or_null (Db.select_by_email (Js.toLowerCase email) db) = Some user /\
    Bcrypt.compare password (Db.password user) = true /\
    Jwt.sign (Db.id user) (Db.email user) None
      (JWT_REFRESH_SECRET (process env)) 604800 (now env)
      = inr (AuthService.ld_refreshToken d) /\
    db' = Db.update_refreshToken (Some (AuthService.ld_refreshToken d))
            (Db.id user) db.
Proof.
  unfold AuthService.login, bind. rewrite findByEmail_run.
  destruct (Db.first_or_null _) as [user|]; [|discriminate].
  destruct (Bcrypt.compare password (Db.password user)) eqn:Hc;
    cbv [negb]; [|discriminate].
  step_body.
  destruct (Jwt.sign (Db.id user) (Db.email user) (Some (Db.rolId user))
              (JWT_SECRET (process env)) 900 (now env))
    as [e1|acc]; [discriminate|].
  destruct (Jwt.sign (Db.id user) (Db.email user) None
              (JWT_REFRESH_SECRET (process env)) 604800 (now env))
    as [e1|new] eqn:Hr; [discriminate|].
  rewrite saveRefreshToken_run. intros H. injection H as <- <-.
  exists user. simpl. auto.
Qed.

Lemma login_owned email password env db :
  slots_owned db -> slots_owned (snd (AuthService.login email password env db)).
Proof.
  intros H.
  destruct (AuthService.login email password env db) as [[e|d] db'] eqn:E; simpl.
  - apply login_inl in E. destruct E as [-> _]. exact H.
  - apply login_inr in E. destruct E as [user [_ [_ [Hr ->]]]].
    apply update_owned; [exact H|]. intros t Ht. injection Ht as <-.
    apply sign_inr in Hr. destruct Hr as [key [_ [_ ->]]]. reflexivity.
Qed.

(** C3. Login with an e-mail no row is stored under and login with a
    stored e-mail but a password that does not match its hash throw the
    same error, [Error] with message "Invalid credentials", write nothing,
    and are answered alike over HTTP. *)
Theorem login_failures_indistinguishable
    (env1 env2 : Env) (db1 db2 : Db.t) (e1 p1 e2 p2 : string)
    (user : Db.User) :
  fst (AuthRepository.findByEmail e1 env1 db1) = inr None ->
  fst (AuthRepository.findByEmail e2 env2 db2) = inr (Some user) ->
  Bcrypt.compare p2 (Db.password user) = false ->
  AuthService.login e1 p1 env1 db1 = (inl (Js.Error "Invalid credentials"), db1) /\
  AuthService.login e2 p2 env2 db2 = (inl (Js.Error "Invalid credentials"), db2) /\
  kind_of (Js.Error "Invalid credentials") = AuthenticationError /\
  fst (AuthController.login e1 p1 env1 db1) =
  fst (AuthController.login e2 p2 env2 db2).
Proof.
  rewrite !findByEmail_run. simpl fst. intros H1 H2 Hcmp.
  injection H1 as H1. injection H2 as H2.
  pose proof (login_unknown e1 p1 env1 db1 H1) as L1.
  pose proof (login_wrong_password e2 p2 env2 db2 user H2 Hcmp) as L2.
  repeat split; try assumption.
  unfold AuthController.login, AuthController.respond.
  rewrite L1, L2. reflexivity.
Qed.

Lemma login_failures_indistinguishable_witness :
  AuthService.login "nobody@x.com" "pw123456" (at_second 7) db0 =
    (inl (Js.Error "Invalid credentials"), db0) /\
  AuthService.login "A@b.com" "wrong" (at_second 8) db0 =
    (inl (Js.Error "Invalid credentials"), db0).
Proof.
  pose proof (login_failures_indistinguishable (at_second 7) (at_second 8)
                db0 db0 "nobody@x.com" "pw123456" "A@b.com" "wrong" alice
                eq_refl eq_refl eq_refl) as H.
  split; [apply H | apply (proj2 H)].
Defined.

(** ** Register *)

Lemma register_conflict input env db user :
  Db.first_or_null
    (Db.select_by_email (Js.toLowerCase (AuthService.reg_email input)) db)
    = Some user ->
  AuthService.register input env db =
  (inl (Js.Error "Email already in use"), db).
Proof.
  intros H. unfold AuthService.register, AuthService.register_in, bind.
  rewrite findByEmail_run, H. reflexivity.
Qed.

Lemma register_unbound input env db :
  Db.first_or_null
    (Db.select_by_email (Js.toLowerCase (AuthService.reg_email input)) db)
    = None ->
  AuthService.register input env db = (inl (Js.ReferenceError "pool"), db).
Proof.
  intros H. unfold AuthService.register, AuthService.register_in, bind.
  rewrite findByEmail_run, H. reflexivity.
Qed.

Lemma register_inl input env db e db' :
  AuthService.register input env db = (inl e, db') ->
  db' = db /\ Js.statusCode e = None.
Proof.
  destruct (Db.first_or_null
              (Db.select_by_email
                 (Js.toLowerCase (AuthService.reg_email input)) db))
    as [user|] eqn:E.
  - rewrite (register_conflict _ _ _ _ E). intros H. injection H as <- <-. auto.
  - rewrite (register_unbound _ _ _ E). intros H. injection H as <- <-. auto.
Qed.

(** Were [pool] bound in the service module, as it is in the repository
    modules, register with a new e-mail would insert the lower-cased
    e-mail with a cost-10 digest and return the new id with the e-mail as
    given. *)
Lemma register_in_bound_scope sc input env db :
  existsb (String.eqb "pool") sc = true ->
  Db.first_or_null
    (Db.select_by_email (Js.toLowerCase (AuthService.reg_email input)) db)
    = None ->
  AuthService.register_in sc input env db =
  (inr (AuthService.mkRegistered (Db.nextId db) (AuthService.reg_email input)),
   Db.mkDb
     (Db.users db ++
      [Db.mkUser (Db.nextId db)
         (Js.toLowerCase (AuthService.reg_email input))
         (Bcrypt.Digest 10 (salt env) (AuthService.reg_password input))
         (Js.or_default (AuthService.reg_rolId input) 1) None])
     (Db.nextId db + 1)).
Proof.
  intros Hsc H. unfold AuthService.register_in, bind, resolve.
  rewrite findByEmail_run, H, Hsc. reflexivity.
Qed.

(** Register returns on no input: it throws on a stored e-mail, and on a
    new one it throws at the unbound [pool]. *)
Lemma register_always_throws input env db :
  exists e, AuthService.register input env db = (inl e, db).
Proof.
  destruct (Db.first_or_null
              (Db.select_by_email
                 (Js.toLowerCase (AuthService.reg_email input)) db))
    as [user|] eqn:E.
  - rewrite (register_conflict _ _ _ _ E). eauto.
  - rewrite (register_unbound _ _ _ E). eauto.
Qed.

Lemma register_owned input env db :
  slots_owned db -> slots_owned (snd (AuthService.register input env db)).
Proof.
  intros H. destruct (register_always_throws input env db) as [e ->]. exact H.
Qed.

(** Every table the workflow reaches has its slots owned. *)
Lemma reachable_owned db : reachable db -> slots_owned db.
Proof.
  induction 1 as [db H | | | |];
    auto using no_sessions_owned, register_owned, login_owned,
      refreshToken_owned, logout_owned.
Qed.

Lemma unique_email_count (rows : list Db.User) (u : Db.User) :
  NoDup (map Db.email rows) -> In u rows ->
  length (filter (fun v => (Db.email v =? Db.email u)%string) rows) = 1%nat.
Proof.
  induction rows as [|r rows IH]; simpl; [contradiction|].
  intros Hnd Hin. inversion Hnd as [|x xs Hnotin Hnd']; subst.
  destruct (String.eqb_spec (Db.email r) (Db.email u)) as [E|E].
  - simpl. f_equal.
    assert (Hnone : forall v, In v rows ->
              (Db.email v =? Db.email u)%string = false).
    { intros v Hv. apply String.eqb_neq. intros Ev. apply Hnotin.
      rewrite E, <- Ev. apply in_map. exact Hv. }
    clear - Hnone. induction rows as [|v rows IH]; simpl; [reflexivity|].
    rewrite (Hnone v) by (left; reflexivity).
    apply IH. intros w Hw. apply Hnone. right. exact Hw.
  - destruct Hin as [->|Hin]; [contradiction|]. apply IH; assumption.
Qed.

(** C6. When a row is stored under the lower-case form of an e-mail,
    register with any e-mail of the same lower-case form throws "Email
    already in use", a conflict, and writes nothing: the table is the one
    before the call, so if e-mails were unique in it exactly one row is
    stored under that e-mail afterwards. *)
Theorem register_conflict_no_write (env : Env) (db : Db.t)
    (e e' p : string) (r : option Z) (u : Db.User) :
  In u (Db.users db) ->
  Db.email u = Js.toLowerCase e ->
  Js.toLowerCase e' = Js.toLowerCase e ->
  let result := AuthService.register (AuthService.mkRegisterInput e' p r) env db in
  fst result = inl (Js.Error "Email already in use") /\
  kind_of (Js.Error "Email already in use") = ConflictError /\
  snd result = db /\
  (NoDup (map Db.email (Db.users db)) ->
   count_email (Js.toLowerCase e) (snd result) = 1%nat).
Proof.
  intros Hin Hmail Hsame. cbv zeta.
  destruct (first_or_null_filter_found
              (fun v => (Db.email v =? Js.toLowerCase e')%string)
              (Db.users db) u Hin) as [user Hfound].
  { apply String.eqb_eq. congruence. }
  rewrite (register_conflict (AuthService.mkRegisterInput e' p r) env db user Hfound).
  simpl. repeat split.
  intros Hnd. unfold count_email, Db.select_by_email. rewrite <- Hmail.
  apply unique_email_count; assumption.
Qed.

Lemma register_conflict_no_write_witness :
  AuthService.register
    (AuthService.mkRegisterInput "A@B.COM" "other-pw" (Some 2))
    (at_second 9) db0
  = (inl (Js.Error "Email already in use"), db0) /\
  count_email "a@b.com" db0 = 1%nat.
Proof.
  pose proof (register_conflict_no_write (at_second 9) db0 "a@B.com" "A@B.COM"
                "other-pw" (Some 2) alice
                (or_introl eq_refl) eq_refl eq_refl) as H.
  cbv zeta in H. destruct H as [H1 [_ [H2 H3]]].
  split.
  - rewrite (surjective_pairing (AuthService.register _ _ _)), H1, H2.
    reflexivity.
  - rewrite H2 in H3. apply H3.
    simpl. repeat constructor; simpl; intuition discriminate.
Defined.

(** C5 fails on the code. Register with an e-mail no row is stored under
    hashes the password at cost 10 and then evaluates [pool], which its
    module never binds: it throws [ReferenceError], inserts no row and
    returns nothing. *)
Theorem register_throws_unbound_pool (input : AuthService.RegisterInput)
    (env : Env) (db : Db.t) :
  fst (AuthRepository.findByEmail (AuthService.reg_email input) env db)
    = inr None ->
  AuthService.register input env db =
    (inl (Js.mkJsError "ReferenceError" "pool is not defined" None), db) /\
  fst (AuthController.register input env db) =
    mkResponse 500 (ErrorBody "error" "Internal Server Error").
Proof.
  rewrite findByEmail_run. simpl fst. intros H. injection H as H.
  pose proof (register_unbound input env db H) as R. split; [exact R|].
  unfold AuthController.register, AuthController.respond. rewrite R.
  reflexivity.
Qed.

Lemma register_throws_unbound_pool_witness :
  AuthService.register
    (AuthService.mkRegisterInput "New@User.com" "pw123456" (Some 1))
    (at_second 3) (Db.mkDb [] 1)
  = (inl (Js.mkJsError "ReferenceError" "pool is not defined" None),
     Db.mkDb [] 1).
Proof.
  apply (register_throws_unbound_pool
           (AuthService.mkRegisterInput "New@User.com" "pw123456" (Some 1))
           (at_second 3) (Db.mkDb [] 1) eq_refl).
Defined.

(** ** Token issuer *)

(** C7. With both secrets configured and different from each other, the
    access token is the claims [id], [email], [rolId] of the user signed
    with the access secret and expiring 900 seconds after issue; the
    refresh token is the claims [id], [email] signed with the refresh
    secret and expiring 604800 seconds after issue; and at any moment,
    under the same configuration, the access token fails verification
    against the refresh secret, so refresh of it throws an authentication
    failure and writes nothing. *)
Theorem token_issuer_contract (user : Db.User) (env : Env) (db : Db.t)
    (ka kr : string) :
  JWT_SECRET (process env) = Some ka ->
  JWT_REFRESH_SECRET (process env) = Some kr ->
  ka <> "" -> kr <> "" -> ka <> kr ->
  let acc :=
    Jwt.Signed (Jwt.mkPayload (Db.id user) (Db.email user)
                  (Some (Db.rolId user)) (now env) (now env + 15 * 60)) ka in
  let ref :=
    Jwt.Signed (Jwt.mkPayload (Db.id user) (Db.email user) None
                  (now env) (now env + 7 * 24 * 60 * 60)) kr in
  TokenUtils.generateAccessToken user env db = (inr acc, db) /\
  TokenUtils.generateRefreshToken user env db = (inr ref, db) /\
  forall env' db',
    process env' = process env ->
    Jwt.verify acc (JWT_REFRESH_SECRET (process env')) (now env') =
      inl (Jwt.JsonWebTokenError "invalid signature") /\
    exists e,
      AuthService.refreshToken acc env' db' = (inl e, db') /\
      kind_of e = AuthenticationError.
Proof.
  intros Ha Hr Hka Hkr Hdiff. cbv zeta.
  apply String.eqb_neq in Hka, Hkr. pose proof Hdiff as Hneq.
  apply String.eqb_neq in Hneq.
  split; [|split].
  - step_body. unfold Jwt.sign. rewrite Ha, Hka. reflexivity.
  - step_body. unfold Jwt.sign. rewrite Hr, Hkr. reflexivity.
  - intros env' db' Hcfg.
    assert (Hver : Jwt.verify
              (Jwt.Signed (Jwt.mkPayload (Db.id user) (Db.email user)
                             (Some (Db.rolId user)) (now env)
                             (now env + 15 * 60)) ka)
              (JWT_REFRESH_SECRET (process env')) (now env') =
              inl (Jwt.JsonWebTokenError "invalid signature")).
    { rewrite Hcfg, Hr. unfold Jwt.verify, Js.truthy_string.
      rewrite Hkr, Hneq. reflexivity. }
    split; [exact Hver|].
    destruct (AuthService.refreshToken _ env' db') as [[e|pair] db''] eqn:E.
    + exists e. pose proof (refreshToken_inl _ _ _ _ _ E) as ->.
      split; [reflexivity|].
      unfold AuthService.refreshToken, bind in E.
      rewrite findUserByRefreshToken_run in E.
      destruct (Db.first_or_null _) as [holder|].
      * revert E. step_body. rewrite Hver. intros E. injection E as <-.
        reflexivity.
      * injection E as <-. reflexivity.
    + apply refreshToken_inr in E. destruct E as [holder [p [_ [Hv _]]]].
      rewrite Hver in Hv. discriminate.
Qed.

Lemma token_issuer_contract_witness :
  TokenUtils.generateAccessToken alice (at_second 100) db0 =
    (inr (Jwt.Signed (Jwt.mkPayload 1 "a@b.com" (Some 1) 100 1000)
            "access-secret"), db0) /\
  TokenUtils.generateRefreshToken alice (at_second 100) db0 =
    (inr (alice_token 100), db0).
Proof.
  pose proof (token_issuer_contract alice (at_second 100) db0
                "access-secret" "refresh-secret" eq_refl eq_refl) as H.
  cbv zeta in H.
  destruct H as [H1 [H2 _]]; try discriminate.
  split; [exact H1 | exact H2].
Defined.

(** The hypothesis that the two secrets differ is needed: configured with
    one value for both, an access token passes the refresh verification
    until it expires. *)
Lemma shared_secret_access_token_verifies (user : Db.User) (clock : Z) :
  Jwt.verify
    (Jwt.Signed (Jwt.mkPayload (Db.id user) (Db.email user)
                   (Some (Db.rolId user)) clock (clock + 900)) "one-secret")
    (Some "one-secret") clock
  = inr (Jwt.mkPayload (Db.id user) (Db.email user)
           (Some (Db.rolId user)) clock (clock + 900)).
Proof.
  unfold Jwt.verify. simpl.
  destruct (Z.geb_spec clock (clock + 900)); [lia | reflexivity].
Qed.

(** ** Status codes at the boundary *)

(** C8, as stated, fails: a login with an unknown e-mail is not answered
    with status 401. *)
Lemma login_failure_status_counterexample :
  ~ (forall (env : Env) (db : Db.t) (email password : string) (e : Js.JsError),
        fst (AuthService.login email password env db) = inl e ->
        kind_of e = AuthenticationError ->
        status (fst (AuthController.login email password env db)) = 401).
Proof.
  intros claim.
  specialize (claim (at_second 7) db0 "nobody@x.com" "pw123456"
                (Js.Error "Invalid credentials") eq_refl eq_refl).
  vm_compute in claim. discriminate.
Qed.

(** C8, amended. A login that fails on bad credentials and a registration
    that fails on a duplicate e-mail are both answered with status 500 and
    the generic message "Internal Server Error": the errors they throw
    carry no [statusCode], and the handler answers with an error's own
    status only when it carries one. *)
Theorem workflow_failures_answer_500
    (env1 env2 : Env) (db1 db2 : Db.t) (email password : string)
    (input : AuthService.RegisterInput) (e1 e2 : Js.JsError) :
  fst (AuthService.login email password env1 db1) = inl e1 ->
  kind_of e1 = AuthenticationError ->
  fst (AuthService.register input env2 db2) = inl e2 ->
  kind_of e2 = ConflictError ->
  let generic := mkResponse 500 (ErrorBody "error" "Internal Server Error") in
  fst (AuthController.login email password env1 db1) = generic /\
  fst (AuthController.register input env2 db2) = generic /\
  Js.statusCode e1 = None /\ Js.statusCode e2 = None /\
  (forall err, Js.truthy (Js.statusCode err) = false ->
     errorHandler err = generic) /\
  (forall err code, Js.statusCode err = Some code -> code <> 0 ->
     errorHandler err = mkResponse code (ErrorBody "error" (Js.message err))).
Proof.
  intros H1 _ H2 _. cbv zeta.
  unfold AuthController.login, AuthController.register, AuthController.respond.
  destruct (AuthService.login email password env1 db1) as [r1 d1] eqn:L.
  destruct (AuthService.register input env2 db2) as [r2 d2] eqn:R.
  simpl in H1, H2. subst r1 r2.
  apply login_inl in L. apply register_inl in R.
  destruct L as [_ S1]. destruct R as [_ S2].
  assert (G : forall err, Js.truthy (Js.statusCode err) = false ->
            errorHandler err =
            mkResponse 500 (ErrorBody "error" "Internal Server Error")).
  { intros err Hf. unfold errorHandler. rewrite Hf. reflexivity. }
  repeat split; simpl; auto.
  - apply G. rewrite S1. reflexivity.
  - apply G. rewrite S2. reflexivity.
  - intros err code Hc Hnz. unfold errorHandler. rewrite Hc. simpl.
    apply Z.eqb_neq in Hnz. rewrite Hnz. reflexivity.
Qed.

Lemma workflow_failures_answer_500_witness :
  fst (AuthController.login "a@b.com" "wrong" (at_second 7) db0) =
    mkResponse 500 (ErrorBody "error" "Internal Server Error") /\
  fst (AuthController.register
         (AuthService.mkRegisterInput "A@B.com" "pw123456" None)
         (at_second 8) db0) =
    mkResponse 500 (ErrorBody "error" "Internal Server Error").
Proof.
  pose proof (workflow_failures_answer_500 (at_second 7) (at_second 8) db0 db0
                "a@b.com" "wrong"
                (AuthService.mkRegisterInput "A@B.com" "pw123456" None)
                (Js.Error "Invalid credentials")
                (Js.Error "Email already in use")
                eq_refl eq_refl eq_refl eq_refl) as H.
  cbv zeta in H. destruct H as [H1 [H2 _]]. split; [exact H1 | exact H2].
Defined.

(** * Further properties of the session workflow *)

(** ** Successful runs *)

Lemma sign_configured uid mail role key life clock :
  key <> "" ->
  Jwt.sign uid mail role (Some key) life clock =
  inr (Jwt.Signed (Jwt.mkPayload uid mail role clock (clock + life)) key).
Proof.
  intros H. unfold Jwt.sign. apply String.eqb_neq in H. rewrite H. reflexivity.
Qed.

Lemma login_run_ok email password env db user ka kr :
  Db.first_or_null (Db.select_by_email (Js.toLowerCase email) db) = Some user ->
  Bcrypt.compare password (Db.password user) = true ->
  configured env ka kr ->
  AuthService.login email password env db =
  (inr (AuthService.mkLoginData "Login successful"
          (Jwt.Signed (Jwt.mkPayload (Db.id user) (Db.email user)
                         (Some (Db.rolId user)) (now env) (now env + 900)) ka)
          (Jwt.Signed (Jwt.mkPayload (Db.id user) (Db.email user) None
                         (now env) (now env + 604800)) kr)
          (AuthService.mkSafeUser (Db.id user) (Db.email user) (Db.rolId user))),
   Db.update_refreshToken
     (Some (Jwt.Signed (Jwt.mkPayload (Db.id user) (Db.email user) None
                          (now env) (now env + 604800)) kr))
     (Db.id user) db).
Proof.
  intros Hfind Hcmp [Ha [Hr [Hka Hkr]]].
  unfold AuthService.login, bind. rewrite findByEmail_run, Hfind, Hcmp.
  cbv [negb]. step_body. rewrite Ha, Hr, !sign_configured by assumption.
  rewrite saveRefreshToken_run. reflexivity.
Qed.

Lemma refresh_run_ok tok env db holder p ka kr :
  Db.first_or_null (Db.select_by_refreshToken tok db) = Some holder ->
  Jwt.verify tok (JWT_REFRESH_SECRET (process env)) (now env) = inr p ->
  configured env ka kr ->
  AuthService.refreshToken tok env db =
  (inr (AuthService.mkTokenPair
          (Jwt.Signed (Jwt.mkPayload (Db.id holder) (Db.email holder)
                         (Some (Db.rolId holder)) (now env) (now env + 900)) ka)
          (Jwt.Signed (Jwt.mkPayload (Db.id holder) (Db.email holder) None
                         (now env) (now env + 604800)) kr)),
   Db.update_refreshToken
     (Some (Jwt.Signed (Jwt.mkPayload (Db.id holder) (Db.email holder) None
                          (now env) (now env + 604800)) kr))
     (Db.id holder) db).
Proof.
  intros Hfind Hver [Ha [Hr [Hka Hkr]]].
  unfold AuthService.refreshToken, bind.
  rewrite findUserByRefreshToken_run, Hfind.
  step_body. rewrite Hver, Ha, Hr, !sign_configured by assumption.
  rewrite saveRefreshToken_run. reflexivity.
Qed.

Lemma update_frame v uid db :
  Db.nextId (Db.update_refreshToken v uid db) = Db.nextId db /\
  Forall2 (fun u u' => same_identity u u' /\ (Db.id u <> uid -> u' = u))
          (Db.users db) (Db.users (Db.update_refreshToken v uid db)).
Proof.
  split; [reflexivity|]. simpl.
  induction (Db.users db) as [|u rows IH]; simpl; constructor; [|exact IH].
  destruct (Z.eqb_spec (Db.id u) uid) as [E|E]; repeat split.
  intros H. contradiction.
Qed.

(** X1. A login with a stored e-mail, in any letter case, and the matching
    password, under configured secrets, returns "Login successful", an
    access token and a refresh token for the row found and that row's id,
    e-mail and role; afterwards every row with that id holds the refresh
    token, every other row is the same row, and no row changed id, e-mail,
    password hash or role. *)
Theorem login_success (email password : string) (env : Env) (db : Db.t)
    (user : Db.User) (ka kr : string) :
  fst (AuthRepository.findByEmail email env db) = inr (Some user) ->
  Bcrypt.compare password (Db.password user) = true ->
  configured env ka kr ->
  let acc := Jwt.Signed (Jwt.mkPayload (Db.id user) (Db.email user)
                           (Some (Db.rolId user)) (now env) (now env + 900)) ka in
  let ref := Jwt.Signed (Jwt.mkPayload (Db.id user) (Db.email user) None
                           (now env) (now env + 604800)) kr in
  let db' := snd (AuthService.login email password env db) in
  fst (AuthService.login email password env db) =
    inr (AuthService.mkLoginData "Login successful" acc ref
           (AuthService.mkSafeUser (Db.id user) (Db.email user) (Db.rolId user))) /\
  slot_of (Db.id user) (Some ref) db' /\
  Db.nextId db' = Db.nextId db /\
  Forall2 (fun u u' => same_identity u u' /\ (Db.id u <> Db.id user -> u' = u))
          (Db.users db) (Db.users db').
Proof.
  rewrite findByEmail_run. simpl fst. intros Hfind Hcmp Hcfg.
  injection Hfind as Hfind. cbv zeta.
  rewrite (login_run_ok _ _ _ _ _ _ _ Hfind Hcmp Hcfg). simpl fst. simpl snd.
  split; [reflexivity|]. split; [apply update_slot_of|]. apply update_frame.
Qed.

Lemma secrets_configured clock :
  configured (at_second clock) "access-secret" "refresh-secret".
Proof. repeat split; discriminate. Qed.

Lemma login_success_witness :
  slot_of 1 (Some (alice_token 100))
    (snd (AuthService.login "A@B.com" "pw123456" (at_second 100) db0)).
Proof.
  apply (login_success "A@B.com" "pw123456" (at_second 100) db0 alice
           "access-secret" "refresh-secret" eq_refl eq_refl
           (secrets_configured 100)).
Defined.

(** X2. Login does not depend on the letter case of the e-mail: two
    e-mails with the same lower-case form give the same result and leave
    the same table. *)
Theorem login_case_insensitive (e e' password : string) (env : Env) (db : Db.t) :
  Js.toLowerCase e = Js.toLowerCase e' ->
  AuthService.login e password env db = AuthService.login e' password env db.
Proof.
  intros H. unfold AuthService.login, bind.
  rewrite !findByEmail_run, H. reflexivity.
Qed.

Lemma login_case_insensitive_witness :
  AuthService.login "User@X.com" "pw" (at_second 1) db0 =
  AuthService.login "user@x.COM" "pw" (at_second 1) db0.
Proof.
  apply (login_case_insensitive "User@X.com" "user@x.COM" "pw" (at_second 1) db0).
  reflexivity.
Defined.

(** X3. With correct credentials but a missing or empty access or refresh
    secret, login throws "secretOrPrivateKey must have a value" and leaves
    the table as it was: no slot is written. *)
Theorem login_missing_secret (email password : string) (env : Env) (db : Db.t)
    (user : Db.User) :
  fst (AuthRepository.findByEmail email env db) = inr (Some user) ->
  Bcrypt.compare password (Db.password user) = true ->
  Js.truthy_string (JWT_SECRET (process env)) = false \/
  Js.truthy_string (JWT_REFRESH_SECRET (process env)) = false ->
  AuthService.login email password env db =
  (inl (Js.Error "secretOrPrivateKey must have a value"), db).
Proof.
  rewrite findByEmail_run. simpl fst. intros Hfind Hcmp Hcfg.
  injection Hfind as Hfind.
  unfold AuthService.login, bind. rewrite findByEmail_run, Hfind, Hcmp.
  cbv [negb]. step_body. unfold Jwt.sign, Js.truthy_string in *.
  destruct (JWT_SECRET (process env)) as [ka|]; [|reflexivity].
  destruct (String.eqb_spec ka ""); [reflexivity|].
  destruct (JWT_REFRESH_SECRET (process env)) as [kr|]; [|reflexivity].
  destruct (String.eqb_spec kr ""); [reflexivity|].
  destruct Hcfg; discriminate.
Qed.

Lemma login_missing_secret_witness :
  AuthService.login "a@b.com" "pw123456"
    (mkEnv 5 "salt" (mkProcessEnv (Some "access-secret") None)) db0 =
  (inl (Js.Error "secretOrPrivateKey must have a value"), db0).
Proof.
  apply (login_missing_secret "a@b.com" "pw123456"
           (mkEnv 5 "salt" (mkProcessEnv (Some "access-secret") None)) db0
           alice eq_refl eq_refl (or_intror eq_refl)).
Defined.

(** ** Sessions over several calls *)

Lemma sign_inl_status uid mail role secret life clock e :
  Jwt.sign uid mail role secret life clock = inl e -> Js.statusCode e = None.
Proof.
  unfold Jwt.sign. destruct secret as [k|].
  - destruct (k =? "")%string; [|discriminate].
    intros H. injection H as <-. reflexivity.
  - intros H. injection H as <-. reflexivity.
Qed.

Lemma verify_inl_status tok secret clock e :
  Jwt.verify tok secret clock = inl e -> Js.statusCode e = None.
Proof.
  unfold Jwt.verify. destruct tok as [p key|s].
  - destruct (Js.truthy_string secret);
      [|intros H; injection H as <-; reflexivity].
    destruct secret as [s|]; [|intros H; injection H as <-; reflexivity].
    destruct (key =? s)%string; [|intros H; injection H as <-; reflexivity].
    destruct (clock >=? Jwt.exp p); [|discriminate].
    intros H; injection H as <-; reflexivity.
  - intros H; injection H as <-; reflexivity.
Qed.

(** Refresh, as a function of the row the lookup finds. *)
Lemma refreshToken_unfold tok env db :
  AuthService.refreshToken tok env db =
  match Db.first_or_null (Db.select_by_refreshToken tok db) with
  | None => (inl (Js.Error "Invalid refresh token"), db)
  | Some holder =>
      match Jwt.verify tok (JWT_REFRESH_SECRET (process env)) (now env) with
      | inl e => (inl e, db)
      | inr _ =>
          match Jwt.sign (Db.id holder) (Db.email holder)
                  (Some (Db.rolId holder)) (JWT_SECRET (process env)) 900
                  (now env) with
          | inl e => (inl e, db)
          | inr acc =>
              match Jwt.sign (Db.id holder) (Db.email holder) None
                      (JWT_REFRESH_SECRET (process env)) 604800 (now env) with
              | inl e => (inl e, db)
              | inr new =>
                  (inr (AuthService.mkTokenPair acc new),
                   Db.update_refreshToken (Some new) (Db.id holder) db)
              end
          end
      end
  end.
Proof.
  unfold AuthService.refreshToken, bind. rewrite findUserByRefreshToken_run.
  destruct (Db.first_or_null (Db.select_by_refreshToken tok db)) as [holder|];
    [|reflexivity].
  step_body.
  destruct (Jwt.verify tok (JWT_REFRESH_SECRET (process env)) (now env));
    [reflexivity|].
  destruct (Jwt.sign (Db.id holder) (Db.email holder) (Some (Db.rolId holder))
              (JWT_SECRET (process env)) 900 (now env)); [reflexivity|].
  destruct (Jwt.sign (Db.id holder) (Db.email holder) None
              (JWT_REFRESH_SECRET (process env)) 604800 (now env));
    [reflexivity|].
  rewrite saveRefreshToken_run. reflexivity.
Qed.

Lemma refreshToken_inl_status tok env db e db' :
  AuthService.refreshToken tok env db = (inl e, db') -> Js.statusCode e = None.
Proof.
  rewrite refreshToken_unfold.
  destruct (Db.first_or_null (Db.select_by_refreshToken tok db)) as [holder|];
    [|intros H; injection H as <- _; reflexivity].
  destruct (Jwt.verify tok (JWT_REFRESH_SECRET (process env)) (now env))
    as [e1|p] eqn:Hv.
  { intros H; injection H as <- _. exact (verify_inl_status _ _ _ _ Hv). }
  destruct (Jwt.sign (Db.id holder) (Db.email holder) (Some (Db.rolId holder))
              (JWT_SECRET (process env)) 900 (now env)) as [e1|acc] eqn:Ha.
  { intros H; injection H as <- _. exact (sign_inl_status _ _ _ _ _ _ _ Ha). }
  destruct (Jwt.sign (Db.id holder) (Db.email holder) None
              (JWT_REFRESH_SECRET (process env)) 604800 (now env))
    as [e1|new] eqn:Hr.
  { intros H; injection H as <- _. exact (sign_inl_status _ _ _ _ _ _ _ Hr). }
  discriminate.
Qed.

(** What a successful login has done. *)
Lemma login_inr_shape email password env db d db' :
  AuthService.login email password env db = (inr d, db') ->
  exists user ka kr,
    Db.first_or_null (Db.select_by_email (Js.toLowerCase email) db) = Some user /\
    Bcrypt.compare password (Db.password user) = true /\
    configured env ka kr /\
    d = AuthService.mkLoginData "Login successful"
          (Jwt.Signed (Jwt.mkPayload (Db.id user) (Db.email user)
                         (Some (Db.rolId user)) (now env) (now env + 900)) ka)
          (Jwt.Signed (Jwt.mkPayload (Db.id user) (Db.email user) None
                         (now env) (now env + 604800)) kr)
          (AuthService.mkSafeUser (Db.id user) (Db.email user) (Db.rolId user)) /\
    db' = Db.update_refreshToken (Some (AuthService.ld_refreshToken d))
            (Db.id user) db.
Proof.
  unfold AuthService.login, bind. rewrite findByEmail_run.
  destruct (Db.first_or_null _) as [user|]; [|discriminate].
  destruct (Bcrypt.compare password (Db.password user)) eqn:Hc;
    cbv [negb]; [|discriminate].
  step_body.
  destruct (Jwt.sign (Db.id user) (Db.email user) (Some (Db.rolId user))
              (JWT_SECRET (process env)) 900 (now env))
    as [e1|acc] eqn:Ha; [discriminate|].
  destruct (Jwt.sign (Db.id user) (Db.email user) None
              (JWT_REFRESH_SECRET (process env)) 604800 (now env))
    as [e1|new] eqn:Hr; [discriminate|].
  rewrite saveRefreshToken_run. intros H. injection H as <- <-.
  apply sign_inr in Ha. destruct Ha as [ka [Ha [Hka ->]]].
  apply sign_inr in Hr. destruct Hr as [kr [Hr [Hkr ->]]].
  exists user, ka, kr. repeat split; auto.
Qed.

(** After a successful login some row holds the token it returned. *)
Lemma login_token_held email password env db d db' :
  AuthService.login email password env db = (inr d, db') ->
  exists holder,
    Db.first_or_null
      (Db.select_by_refreshToken (AuthService.ld_refreshToken d) db')
      = Some holder /\
    In holder (Db.users db') /\
    Db.refreshToken holder = Some (AuthService.ld_refreshToken d).
Proof.
  intros H. apply login_inr_shape in H.
  destruct H as [user [ka [kr [Hfind [_ [_ [_ ->]]]]]]].
  apply first_or_null_filter_some in Hfind. destruct Hfind as [Hin _].
  set (tok := AuthService.ld_refreshToken d).
  assert (Hin' : In (Db.set_refreshToken (Some tok) user)
                    (Db.users (Db.update_refreshToken (Some tok) (Db.id user) db))).
  { apply in_update. exists user. split; [exact Hin|].
    rewrite Z.eqb_refl. reflexivity. }
  destruct (first_or_null_filter_found (Db.slot_is tok) _ _ Hin')
    as [holder Hh].
  { apply slot_is_true. reflexivity. }
  exists holder. split; [exact Hh|].
  apply first_or_null_filter_some in Hh. destruct Hh as [H1 H2].
  apply slot_is_true in H2. auto.
Qed.

(** X4. The refresh token a login returned refreshes: presented before
    its seventh day is over, under the same configuration, it yields a new
    pair for the same user id, and that user's slot then holds the new
    refresh token. *)
Theorem login_then_refresh (email password : string) (env env2 : Env)
    (db db1 : Db.t) (d : AuthService.LoginData) :
  slots_owned db ->
  AuthService.login email password env db = (inr d, db1) ->
  process env2 = process env ->
  now env2 < now env + 604800 ->
  exists pair db2,
    AuthService.refreshToken (AuthService.ld_refreshToken d) env2 db1
      = (inr pair, db2) /\
    Jwt.subject (AuthService.tp_accessToken pair)
      = Some (AuthService.su_id (AuthService.ld_user d)) /\
    Jwt.subject (AuthService.tp_refreshToken pair)
      = Some (AuthService.su_id (AuthService.ld_user d)) /\
    slot_of (AuthService.su_id (AuthService.ld_user d))
      (Some (AuthService.tp_refreshToken pair)) db2.
Proof.
  intros Hown Hlogin Hcfg Hclock.
  pose proof (login_owned email password env db Hown) as Hown1.
  rewrite Hlogin in Hown1. simpl in Hown1.
  destruct (login_token_held _ _ _ _ _ _ Hlogin) as [holder [Hh [Hin Hslot]]].
  pose proof (Hown1 holder _ Hin Hslot) as Hsub.
  apply login_inr_shape in Hlogin.
  destruct Hlogin as [user [ka [kr [_ [_ [[Ha [Hr [Hka Hkr]]] [-> _]]]]]]].
  simpl in *. injection Hsub as Hsub.
  assert (Hcfg2 : configured env2 ka kr).
  { unfold configured. rewrite Hcfg. auto. }
  assert (Hver : Jwt.verify
            (Jwt.Signed (Jwt.mkPayload (Db.id user) (Db.email user) None
                           (now env) (now env + 604800)) kr)
            (JWT_REFRESH_SECRET (process env2)) (now env2)
            = inr (Jwt.mkPayload (Db.id user) (Db.email user) None
                     (now env) (now env + 604800))).
  { rewrite Hcfg, Hr. unfold Jwt.verify, Js.truthy_string. simpl.
    apply String.eqb_neq in Hkr. rewrite Hkr, String.eqb_refl. simpl.
    destruct (Z.geb_spec (now env2) (now env + 604800)); [lia|reflexivity]. }
  rewrite (refresh_run_ok _ _ _ _ _ _ _ Hh Hver Hcfg2).
  eexists. eexists. split; [reflexivity|]. simpl.
  rewrite <- Hsub. repeat split. apply update_slot_of.
Qed.

Lemma login_then_refresh_witness :
  exists pair db2,
    AuthService.refreshToken (alice_token 100) (at_second 500) db_logged_in
      = (inr pair, db2) /\
    Jwt.subject (AuthService.tp_accessToken pair) = Some 1 /\
    Jwt.subject (AuthService.tp_refreshToken pair) = Some 1 /\
    slot_of 1 (Some (AuthService.tp_refreshToken pair)) db2.
Proof.
  apply (login_then_refresh "A@B.com" "pw123456" (at_second 100)
           (at_second 500) db0 db_logged_in
           (AuthService.mkLoginData "Login successful"
              (Jwt.Signed (Jwt.mkPayload 1 "a@b.com" (Some 1) 100 1000)
                 "access-secret")
              (alice_token 100)
              (AuthService.mkSafeUser 1 "a@b.com" 1))).
  - intros u tok [<-|[<-|[]]]; discriminate.
  - reflexivity.
  - reflexivity.
  - simpl. lia.
Defined.

(** X5. From its seventh day on, the refresh token a login returned is
    refused with "jwt expired", and the slot keeps holding it: the table
    is what the login left. *)
Theorem login_then_refresh_expired (email password : string) (env env2 : Env)
    (db db1 : Db.t) (d : AuthService.LoginData) :
  AuthService.login email password env db = (inr d, db1) ->
  process env2 = process env ->
  now env + 604800 <= now env2 ->
  AuthService.refreshToken (AuthService.ld_refreshToken d) env2 db1
    = (inl Jwt.TokenExpiredError, db1).
Proof.
  intros Hlogin Hcfg Hclock.
  destruct (login_token_held _ _ _ _ _ _ Hlogin) as [holder [Hh _]].
  apply login_inr_shape in Hlogin.
  destruct Hlogin as [user [ka [kr [_ [_ [[Ha [Hr [Hka Hkr]]] [-> _]]]]]]].
  simpl in *. rewrite refreshToken_unfold, Hh, Hcfg, Hr.
  unfold Jwt.verify, Js.truthy_string. simpl.
  apply String.eqb_neq in Hkr. rewrite Hkr, String.eqb_refl. simpl.
  destruct (Z.geb_spec (now env2) (now env + 604800)); [reflexivity|lia].
Qed.

Lemma login_then_refresh_expired_witness :
  AuthService.refreshToken (alice_token 100) (at_second 604900) db_logged_in
    = (inl Jwt.TokenExpiredError, db_logged_in).
Proof.
  apply (login_then_refresh_expired "A@B.com" "pw123456" (at_second 100)
           (at_second 604900) db0 db_logged_in
           (AuthService.mkLoginData "Login successful"
              (Jwt.Signed (Jwt.mkPayload 1 "a@b.com" (Some 1) 100 1000)
                 "access-secret")
              (alice_token 100)
              (AuthService.mkSafeUser 1 "a@b.com" 1))).
  - reflexivity.
  - reflexivity.
  - simpl. lia.
Defined.

(** X6. A login ends the user's earlier session: in a table whose slots
    hold their holders' own tokens, after a successful login any other
    token carrying that user's id is refused with "Invalid refresh token"
    and the table is left as it is. *)
Theorem login_supersedes_session (email password : string) (env : Env)
    (db db1 : Db.t) (d : AuthService.LoginData) (old : Jwt.token) :
  slots_owned db ->
  AuthService.login email password env db = (inr d, db1) ->
  Jwt.subject old = Some (AuthService.su_id (AuthService.ld_user d)) ->
  old <> AuthService.ld_refreshToken d ->
  forall env2,
    AuthService.refreshToken old env2 db1
      = (inl (Js.Error "Invalid refresh token"), db1).
Proof.
  intros Hown Hlogin Hsub Hneq env2.
  apply login_inr_shape in Hlogin.
  destruct Hlogin as [user [ka [kr [_ [_ [_ [Hd ->]]]]]]].
  rewrite Hd in Hsub. simpl in Hsub.
  apply refreshToken_unmatched.
  apply no_holder_after_update; [exact Hown | exact Hsub |].
  intros H. injection H as H. apply Hneq. symmetry. exact H.
Qed.

Lemma login_supersedes_session_witness :
  AuthService.refreshToken (alice_token 100) (at_second 300)
    (snd (AuthService.login "a@b.com" "pw123456" (at_second 200) db_logged_in))
  = (inl (Js.Error "Invalid refresh token"),
     snd (AuthService.login "a@b.com" "pw123456" (at_second 200) db_logged_in)).
Proof.
  apply (login_supersedes_session "a@b.com" "pw123456" (at_second 200)
           db_logged_in
           (snd (AuthService.login "a@b.com" "pw123456" (at_second 200)
                   db_logged_in))
           (AuthService.mkLoginData "Login successful"
              (Jwt.Signed (Jwt.mkPayload 1 "a@b.com" (Some 1) 200 1100)
                 "access-secret")
              (alice_token 200)
              (AuthService.mkSafeUser 1 "a@b.com" 1))
           (alice_token 100) db_logged_in_owned).
  - reflexivity.
  - reflexivity.
  - discriminate.
Defined.

Lemma update_commute v w i j db :
  i <> j ->
  Db.update_refreshToken v i (Db.update_refreshToken w j db) =
  Db.update_refreshToken w j (Db.update_refreshToken v i db).
Proof.
  intros Hij. unfold Db.update_refreshToken. simpl. f_equal.
  rewrite !map_map. apply map_ext. intros u.
  destruct (Db.id u =? i) eqn:Ei; destruct (Db.id u =? j) eqn:Ej; simpl;
    rewrite ?Ei, ?Ej; try reflexivity.
  apply Z.eqb_eq in Ei, Ej. exfalso. apply Hij. congruence.
Qed.

(** Clearing the slot of [uid] does not change which rows hold a token
    whose holders all have another id. *)
Lemma select_after_clear tok uid db :
  (forall u, In u (Db.users db) -> Db.refreshToken u = Some tok ->
     Db.id u <> uid) ->
  Db.select_by_refreshToken tok (Db.update_refreshToken None uid db) =
  Db.select_by_refreshToken tok db.
Proof.
  unfold Db.select_by_refreshToken, Db.update_refreshToken. simpl.
  induction (Db.users db) as [|u rows IH]; intros H; simpl; [reflexivity|].
  rewrite IH by (intros v Hv; apply H; right; exact Hv).
  destruct (Z.eqb_spec (Db.id u) uid) as [E|E]; [|reflexivity].
  unfold Db.slot_is at 1. simpl.
  destruct (Db.slot_is tok u) eqn:Hs; [|reflexivity].
  apply slot_is_true in Hs. exfalso. apply (H u); auto. left. reflexivity.
Qed.

(** X7. Logging one user out does not disturb another user's session: in
    a table whose slots hold their holders' own tokens, refresh of a token
    that carries another id gives, after the logout, the result it gives
    before it, and the two calls leave the same table in either order. *)
Theorem logout_keeps_other_sessions (tok : Jwt.token) (uid : Z)
    (env env1 env2 : Env) (db : Db.t) :
  slots_owned db ->
  Jwt.subject tok <> Some uid ->
  AuthService.refreshToken tok env (snd (AuthService.logout uid env1 db)) =
  (fst (AuthService.refreshToken tok env db),
   snd (AuthService.logout uid env2 (snd (AuthService.refreshToken tok env db)))).
Proof.
  intros Hown Hsub. rewrite !logout_run. simpl snd.
  assert (Hother : forall u, In u (Db.users db) ->
            Db.refreshToken u = Some tok -> Db.id u <> uid).
  { intros u Hin Hs E. apply Hsub. rewrite <- E. exact (Hown u tok Hin Hs). }
  rewrite !refreshToken_unfold, (select_after_clear tok uid db Hother).
  destruct (Db.first_or_null (Db.select_by_refreshToken tok db))
    as [holder|] eqn:Hh; [|reflexivity].
  destruct (Jwt.verify tok (JWT_REFRESH_SECRET (process env)) (now env));
    [reflexivity|].
  destruct (Jwt.sign (Db.id holder) (Db.email holder) (Some (Db.rolId holder))
              (JWT_SECRET (process env)) 900 (now env)); [reflexivity|].
  destruct (Jwt.sign (Db.id holder) (Db.email holder) None
              (JWT_REFRESH_SECRET (process env)) 604800 (now env));
    [reflexivity|].
  simpl. f_equal. apply update_commute.
  apply first_or_null_filter_some in Hh. destruct Hh as [Hin Hs].
  apply slot_is_true in Hs. exact (Hother holder Hin Hs).
Qed.

Lemma logout_keeps_other_sessions_witness :
  fst (AuthService.refreshToken (alice_token 100) (at_second 200)
         (snd (AuthService.logout 2 (at_second 150) db_logged_in)))
  = fst (AuthService.refreshToken (alice_token 100) (at_second 200)
           db_logged_in).
Proof.
  rewrite (logout_keeps_other_sessions (alice_token 100) 2 (at_second 200)
             (at_second 150) (at_second 150) db_logged_in db_logged_in_owned).
  - reflexivity.
  - discriminate.
Defined.

(** ** What no call of the workflow does *)

Lemma identity_kept_refl rows : Forall2 same_identity rows rows.
Proof. induction rows; constructor; auto. repeat split. Qed.

Lemma identity_kept_update v uid db :
  Forall2 same_identity (Db.users db)
    (Db.users (Db.update_refreshToken v uid db)).
Proof.
  simpl. induction (Db.users db) as [|u rows IH]; simpl; constructor;
    [|exact IH].
  destruct (Db.id u =? uid); repeat split.
Qed.

(** The table a call leaves is the one it found or that one with the slot
    of one id rewritten. *)
Lemma run_call_table c env db :
  snd (run_call c env db) = db \/
  exists v uid, snd (run_call c env db) = Db.update_refreshToken v uid db.
Proof.
  destruct c as [input|email password|tok|uid]; unfold run_call, outcome.
  - destruct (register_always_throws input env db) as [e ->]. left. reflexivity.
  - destruct (AuthService.login email password env db) as [[e|d] db'] eqn:E.
    + apply login_inl in E. left. simpl. apply E.
    + apply login_inr in E. destruct E as [user [_ [_ [_ ->]]]]. right.
      simpl. do 2 eexists. reflexivity.
  - destruct (AuthService.refreshToken tok env db) as [[e|pair] db'] eqn:E.
    + apply refreshToken_inl in E. left. simpl. exact E.
    + apply refreshToken_inr in E.
      destruct E as [user [p [_ [_ [_ [_ ->]]]]]]. right. simpl. do 2 eexists. reflexivity.
  - rewrite logout_run. right. simpl. do 2 eexists. reflexivity.
Qed.

(** X8. No call of the workflow, whether it returns or throws, adds or
    removes a row, moves the id counter, or changes the id, e-mail,
    password hash or role of a row: register, login, refresh and logout
    touch nothing but slots. *)
Theorem workflow_touches_only_slots (c : Call) (env : Env) (db : Db.t) :
  Db.nextId (snd (run_call c env db)) = Db.nextId db /\
  Forall2 same_identity (Db.users db) (Db.users (snd (run_call c env db))).
Proof.
  destruct (run_call_table c env db) as [->|[v [uid ->]]].
  - split; [reflexivity|apply identity_kept_refl].
  - split; [reflexivity|apply identity_kept_update].
Qed.

(** X9. A call of the workflow that throws has written nothing, and its
    route answers status 500 with the message "Internal Server Error"
    whatever was thrown: an unknown, superseded, expired or forged refresh
    token is answered like a failed login. *)
Theorem workflow_failure_no_write_500 (c : Call) (env : Env) (db : Db.t)
    (e : Js.JsError) :
  fst (run_call c env db) = Some e ->
  snd (run_call c env db) = db /\
  Js.statusCode e = None /\
  answer_call c env db = mkResponse 500 (ErrorBody "error" "Internal Server Error").
Proof.
  assert (G : forall err, Js.statusCode err = None ->
            errorHandler err =
            mkResponse 500 (ErrorBody "error" "Internal Server Error")).
  { intros err H. unfold errorHandler. rewrite H. reflexivity. }
  destruct c as [input|email password|tok|uid];
    unfold run_call, outcome, answer_call, AuthController.register,
      AuthController.login, AuthController.refresh, AuthController.logout,
      AuthController.respond.
  - destruct (AuthService.register input env db) as [[e1|r] db'] eqn:E;
      simpl; [|discriminate].
    intros H. injection H as <-. apply register_inl in E.
    destruct E as [-> S]. auto.
  - destruct (AuthService.login email password env db) as [[e1|d] db'] eqn:E;
      simpl; [|discriminate].
    intros H. injection H as <-. apply login_inl in E.
    destruct E as [-> S]. auto.
  - destruct (AuthService.refreshToken tok env db) as [[e1|p] db'] eqn:E;
      simpl; [|discriminate].
    intros H. injection H as <-.
    pose proof (refreshToken_inl_status _ _ _ _ _ E) as S.
    apply refreshToken_inl in E. subst. auto.
  - rewrite logout_run. discriminate.
Qed.

Lemma workflow_failure_no_write_500_witness :
  answer_call (CallRefresh (alice_token 100)) (at_second 604900) db_logged_in
  = mkResponse 500 (ErrorBody "error" "Internal Server Error").
Proof.
  apply (workflow_failure_no_write_500 (CallRefresh (alice_token 100))
           (at_second 604900) db_logged_in Jwt.TokenExpiredError eq_refl).
Defined.

(** X10. The register route never answers 201: for every body and every
    table it answers status 500 with "Internal Server Error" and inserts
    nothing. *)
Theorem register_route_always_500 (input : AuthService.RegisterInput)
    (env : Env) (db : Db.t) :
  AuthController.register input env db =
  (mkResponse 500 (ErrorBody "error" "Internal Server Error"), db).
Proof.
  unfold AuthController.register, AuthController.respond.
  destruct (register_always_throws input env db) as [e E].
  rewrite E. apply register_inl in E. destruct E as [_ S].
  unfold errorHandler. rewrite S. reflexivity.
Qed.

(** * The user repository on the same table *)

(** ** Lower-casing *)

Lemma lower_ascii_idem c : Js.lower_ascii (Js.lower_ascii c) = Js.lower_ascii c.
Proof.
  destruct c as [[] [] [] [] [] [] [] []]; reflexivity.
Qed.

Lemma toLowerCase_idem s : Js.toLowerCase (Js.toLowerCase s) = Js.toLowerCase s.
Proof.
  induction s as [|c s IH]; simpl; [reflexivity|].
  rewrite lower_ascii_idem, IH. reflexivity.
Qed.

Lemma toLowerCase_empty s : Js.toLowerCase s = "" <-> s = "".
Proof. destruct s; simpl; split; congruence. Qed.

(** ** The repository calls, run *)

Lemma user_findByEmail_run email env db :
  email <> "" ->
  UserRepository.findByEmail email env db =
  (inr (Db.first_or_null (Db.select_by_email (Js.toLowerCase email) db)), db).
Proof.
  intros H. unfold UserRepository.findByEmail.
  apply String.eqb_neq in H. rewrite H. reflexivity.
Qed.

Lemma user_findById_run id env db :
  id <> 0 ->
  UserRepository.findById id env db =
  (inr (Db.first_or_null (UserDb.select_by_id id db)), db).
Proof.
  intros H. unfold UserRepository.findById.
  apply Z.eqb_neq in H. rewrite H. reflexivity.
Qed.

Lemma select_by_id_fresh input env db :
  ids_fresh db ->
  UserDb.select_by_id (Db.nextId db) (after_insert input env db) =
  [inserted_row input env db].
Proof.
  intros [_ Hids]. unfold UserDb.select_by_id, after_insert. simpl.
  rewrite filter_app. simpl. rewrite Z.eqb_refl.
  replace (filter (fun u => Db.id u =? Db.nextId db) (Db.users db)) with
    (@nil Db.User); [reflexivity|].
  symmetry. induction (Db.users db) as [|u rows IH]; simpl; [reflexivity|].
  destruct (Z.eqb_spec (Db.id u) (Db.nextId db)) as [E|E].
  - specialize (Hids u (or_introl eq_refl)). lia.
  - apply IH. intros v Hv. apply Hids. right. exact Hv.
Qed.

Lemma filter_nil_of_first (f : Db.User -> bool) rows :
  Db.first_or_null (filter f rows) = None -> filter f rows = [].
Proof. destruct (filter f rows); [reflexivity|discriminate]. Qed.

(** [createUser], by cases. *)
Lemma createUser_unfold input env db :
  UserRepository.createUser input env db =
  if (UserRepository.email input =? "")%string
  then (inl (Js.Error "Invalid email"), db)
  else
    match Db.first_or_null
            (Db.select_by_email
               (Js.toLowerCase (UserRepository.email input)) db) with
    | Some _ => (inl (Js.Error "Email already in use"), db)
    | None =>
        UserRepository.findById (Db.nextId db) env (after_insert input env db)
    end.
Proof.
  unfold UserRepository.createUser, bind.
  destruct (String.eqb_spec (UserRepository.email input) "") as [E|E].
  - unfold UserRepository.findByEmail. rewrite E. reflexivity.
  - rewrite user_findByEmail_run, toLowerCase_idem
      by (rewrite toLowerCase_empty; exact E).
    destruct (Db.first_or_null _); reflexivity.
Qed.

(** X11. On a table whose id counter is positive and above every stored
    id, [createUser] with a non-empty e-mail that no row is stored under
    appends one row: it has the next id, the lower-cased e-mail, the
    cost-10 digest of the password, the given role and an empty slot; the
    call returns that row and advances the counter by one. *)
Theorem createUser_inserts (input : UserRepository.NewUser) (env : Env)
    (db : Db.t) :
  ids_fresh db ->
  UserRepository.email input <> "" ->
  (forall u, In u (Db.users db) ->
     Db.email u <> Js.toLowerCase (UserRepository.email input)) ->
  let row :=
    Db.mkUser (Db.nextId db) (Js.toLowerCase (UserRepository.email input))
      (Bcrypt.hash (UserRepository.password input) 10 (salt env))
      (UserRepository.rolId input) None in
  UserRepository.createUser input env db =
  (inr (Some row), Db.mkDb (Db.users db ++ [row]) (Db.nextId db + 1)).
Proof.
  intros Hids Hmail Hnew. cbv zeta. rewrite createUser_unfold.
  apply String.eqb_neq in Hmail. rewrite Hmail.
  assert (Hnone : Db.first_or_null
            (Db.select_by_email
               (Js.toLowerCase (UserRepository.email input)) db) = None).
  { apply first_or_null_filter_none. intros u Hu.
    apply String.eqb_neq. apply Hnew. exact Hu. }
  rewrite Hnone. rewrite user_findById_run by (destruct Hids; lia).
  simpl fst. rewrite select_by_id_fresh by exact Hids. reflexivity.
Qed.

Lemma db0_ids_fresh : ids_fresh db0.
Proof.
  split; [reflexivity|]. intros u [<-|[<-|[]]]; simpl; lia.
Qed.

Lemma createUser_inserts_witness :
  UserRepository.createUser
    (UserRepository.mkNewUser "Carol@X.com" "s3cret" 2) (at_second 9) db0 =
  (inr (Some (Db.mkUser 3 "carol@x.com" (Bcrypt.Digest 10 "salt" "s3cret") 2 None)),
   Db.mkDb [alice; bob;
            Db.mkUser 3 "carol@x.com" (Bcrypt.Digest 10 "salt" "s3cret") 2 None]
     4).
Proof.
  apply (createUser_inserts
           (UserRepository.mkNewUser "Carol@X.com" "s3cret" 2) (at_second 9)
           db0 db0_ids_fresh).
  - discriminate.
  - intros u [<-|[<-|[]]]; discriminate.
Defined.

(** X12. [createUser] with an e-mail whose lower-case form a row is
    stored under, in whatever letter case it is given, throws "Email
    already in use" and writes nothing. *)
Theorem createUser_conflict_no_write (input : UserRepository.NewUser)
    (env : Env) (db : Db.t) (u : Db.User) :
  In u (Db.users db) ->
  Db.email u = Js.toLowerCase (UserRepository.email input) ->
  UserRepository.email input <> "" ->
  UserRepository.createUser input env db =
  (inl (Js.Error "Email already in use"), db).
Proof.
  intros Hin Hmail Hne. rewrite createUser_unfold.
  apply String.eqb_neq in Hne. rewrite Hne.
  destruct (first_or_null_filter_found
              (fun v => (Db.email v =?
                         Js.toLowerCase (UserRepository.email input))%string)
              (Db.users db) u Hin) as [found Hfound].
  { apply String.eqb_eq. exact Hmail. }
  unfold Db.select_by_email. rewrite Hfound. reflexivity.
Qed.

Lemma createUser_conflict_no_write_witness :
  UserRepository.createUser
    (UserRepository.mkNewUser "BOB@x.com" "other" 1) (at_second 9) db0 =
  (inl (Js.Error "Email already in use"), db0).
Proof.
  apply (createUser_conflict_no_write
           (UserRepository.mkNewUser "BOB@x.com" "other" 1) (at_second 9)
           db0 bob).
  - right. left. reflexivity.
  - reflexivity.
  - discriminate.
Defined.

Lemma found_affects (f : Db.User -> bool) rows u :
  Db.first_or_null (filter f rows) = Some u ->
  (Z.of_nat (length (filter f rows)) =? 0) = false.
Proof.
  destruct (filter f rows); [discriminate|]. intros _. reflexivity.
Qed.

(** [updateById], by cases. *)
Lemma updateById_unfold id data env db :
  UserRepository.updateById id data env db =
  if id =? 0 then (inl (Js.Error "Invalid ID"), db)
  else
    match Db.first_or_null (UserDb.select_by_id id db) with
    | None => (inl (Js.Error "User not found"), db)
    | Some _ =>
        (inr (Db.first_or_null
                (UserDb.select_by_id id (after_update id data env db))),
         after_update id data env db)
    end.
Proof.
  unfold UserRepository.updateById, bind.
  destruct (Z.eqb_spec id 0) as [E|E].
  - unfold UserRepository.findById. subst id. reflexivity.
  - rewrite user_findById_run by exact E.
    destruct (Db.first_or_null (UserDb.select_by_id id db)) as [u|] eqn:Hf;
      [|reflexivity].
    cbv [ask exec resolve ret throw UserRepository.scope existsb String.eqb
         Ascii.eqb Bool.eqb orb UserDb.update_credentials
         UserDb.affectedRows].
    unfold UserDb.select_by_id in Hf |- *.
    rewrite (found_affects _ _ _ Hf).
    rewrite user_findById_run by exact E. reflexivity.
Qed.

(** [deleteById], by cases. *)
Lemma deleteById_unfold id env db :
  UserRepository.deleteById id env db =
  if id =? 0 then (inl (Js.Error "Invalid ID"), db)
  else
    match Db.first_or_null (UserDb.select_by_id id db) with
    | None => (inl (Js.Error "User not found"), db)
    | Some _ => (inr true, after_delete id db)
    end.
Proof.
  unfold UserRepository.deleteById, bind.
  destruct (Z.eqb_spec id 0) as [E|E].
  - unfold UserRepository.findById. subst id. reflexivity.
  - rewrite user_findById_run by exact E.
    destruct (Db.first_or_null (UserDb.select_by_id id db)) as [u|] eqn:Hf;
      [|reflexivity].
    cbv [ask exec resolve ret throw UserRepository.scope existsb String.eqb
         Ascii.eqb Bool.eqb orb UserDb.delete_by_id UserDb.affectedRows].
    unfold UserDb.select_by_id in Hf |- *.
    rewrite (found_affects _ _ _ Hf). reflexivity.
Qed.

(** X13. The repository refuses falsy arguments before it touches the
    table: id 0 makes [findById], [updateById] and [deleteById] throw
    "Invalid ID", an empty e-mail makes [findByEmail] and [createUser]
    throw "Invalid email"; an id that no row has makes [updateById] and
    [deleteById] throw "User not found". Nothing is written in any of
    these cases. *)
Theorem user_repository_rejections (env : Env) (db : Db.t)
    (data : UserRepository.UpdateData) (password : string) (role id : Z) :
  UserRepository.findById 0 env db = (inl (Js.Error "Invalid ID"), db) /\
  UserRepository.updateById 0 data env db = (inl (Js.Error "Invalid ID"), db) /\
  UserRepository.deleteById 0 env db = (inl (Js.Error "Invalid ID"), db) /\
  UserRepository.findByEmail "" env db = (inl (Js.Error "Invalid email"), db) /\
  UserRepository.createUser (UserRepository.mkNewUser "" password role) env db
    = (inl (Js.Error "Invalid email"), db) /\
  (id <> 0 -> (forall u, In u (Db.users db) -> Db.id u <> id) ->
   UserRepository.updateById id data env db
     = (inl (Js.Error "User not found"), db) /\
   UserRepository.deleteById id env db
     = (inl (Js.Error "User not found"), db)).
Proof.
  do 5 (split; [reflexivity|]).
  intros Hnz Hnone.
  assert (Hfind : Db.first_or_null (UserDb.select_by_id id db) = None).
  { apply first_or_null_filter_none. intros u Hu.
    apply Z.eqb_neq. apply Hnone. exact Hu. }
  apply Z.eqb_neq in Hnz.
  split.
  - rewrite updateById_unfold, Hnz, Hfind. reflexivity.
  - rewrite deleteById_unfold, Hnz, Hfind. reflexivity.
Qed.

Lemma user_repository_rejections_witness :
  UserRepository.deleteById 9 (at_second 1) db0
    = (inl (Js.Error "User not found"), db0).
Proof.
  apply (user_repository_rejections (at_second 1) db0
           (UserRepository.mkUpdateData "x@y.z" "pw") "pw" 1 9).
  - discriminate.
  - intros u [<-|[<-|[]]]; discriminate.
Defined.

(** ** Invariants across the two modules *)

Lemma createUser_table input env db :
  snd (UserRepository.createUser input env db) = db \/
  (Db.first_or_null
     (Db.select_by_email (Js.toLowerCase (UserRepository.email input)) db)
     = None /\
   snd (UserRepository.createUser input env db) = after_insert input env db).
Proof.
  rewrite createUser_unfold.
  destruct (UserRepository.email input =? "")%string; [left; reflexivity|].
  destruct (Db.first_or_null _) as [u|] eqn:Hf; [left; reflexivity|].
  right. split; [reflexivity|].
  unfold UserRepository.findById.
  destruct (Db.nextId db =? 0); reflexivity.
Qed.

Lemma updateById_table id data env db :
  snd (UserRepository.updateById id data env db) = db \/
  snd (UserRepository.updateById id data env db) = after_update id data env db.
Proof.
  rewrite updateById_unfold. destruct (id =? 0); [left; reflexivity|].
  destruct (Db.first_or_null _); [right|left]; reflexivity.
Qed.

Lemma deleteById_table id env db :
  snd (UserRepository.deleteById id env db) = db \/
  snd (UserRepository.deleteById id env db) = after_delete id db.
Proof.
  rewrite deleteById_unfold. destruct (id =? 0); [left; reflexivity|].
  destruct (Db.first_or_null _); [right|left]; reflexivity.
Qed.

Lemma in_after_update id data env db u' :
  In u' (Db.users (after_update id data env db)) ->
  exists u, In u (Db.users db) /\ Db.id u' = Db.id u /\
            Db.refreshToken u' = Db.refreshToken u.
Proof.
  unfold after_update, UserDb.update_credentials. simpl.
  rewrite in_map_iff. intros [u [<- Hin]]. exists u. split; [exact Hin|].
  destruct (Db.id u =? id); split; reflexivity.
Qed.

Lemma in_after_delete id db u :
  In u (Db.users (after_delete id db)) <->
  In u (Db.users db) /\ Db.id u <> id.
Proof.
  unfold after_delete, UserDb.delete_by_id. simpl. rewrite filter_In.
  rewrite negb_true_iff, Z.eqb_neq. reflexivity.
Qed.

Lemma NoDup_snoc {A} (l : list A) (x : A) :
  NoDup l -> ~ In x l -> NoDup (l ++ [x]).
Proof.
  induction l as [|a l IH]; simpl; intros Hnd Hx.
  - constructor; [intros []|constructor].
  - inversion Hnd as [|b m Ha Hl]; subst. constructor.
    + rewrite in_app_iff. simpl. intros [H|[H|[]]]; [contradiction|].
      apply Hx. left. symmetry. exact H.
    + apply IH; [exact Hl|]. intros H. apply Hx. right. exact H.
Qed.

Lemma NoDup_map_filter {A B} (g : A -> B) (f : A -> bool) (l : list A) :
  NoDup (map g l) -> NoDup (map g (filter f l)).
Proof.
  induction l as [|a l IH]; simpl; intros H; [constructor|].
  inversion H as [|b m Ha Hl]; subst.
  destruct (f a); simpl; [|apply IH; exact Hl].
  constructor; [|apply IH; exact Hl].
  intros Hin. apply Ha. apply in_map_iff in Hin.
  destruct Hin as [x [Hx Hin]]. apply filter_In in Hin.
  apply in_map_iff. exists x. split; [exact Hx|apply Hin].
Qed.

Lemma ids_fresh_insert input env db :
  ids_fresh db -> ids_fresh (after_insert input env db).
Proof.
  intros [Hpos Hids]. split; [simpl; lia|].
  intros u Hin. unfold after_insert in Hin |- *. simpl in Hin |- *.
  apply in_app_iff in Hin. destruct Hin as [Hin|[<-|[]]].
  - specialize (Hids u Hin). lia.
  - simpl. lia.
Qed.

Lemma slots_owned_insert input env db :
  slots_owned db -> slots_owned (after_insert input env db).
Proof.
  intros Hown u tok Hin Hs. unfold after_insert in Hin. simpl in Hin.
  apply in_app_iff in Hin. destruct Hin as [Hin|[<-|[]]].
  - apply Hown; assumption.
  - discriminate.
Qed.

Lemma emails_unique_insert input env db :
  Db.first_or_null
    (Db.select_by_email (Js.toLowerCase (UserRepository.email input)) db)
    = None ->
  emails_unique db -> emails_unique (after_insert input env db).
Proof.
  unfold emails_unique, after_insert. simpl. intros Hnone Hnd.
  rewrite map_app. simpl. apply NoDup_snoc; [exact Hnd|].
  intros Hin. apply in_map_iff in Hin. destruct Hin as [u [Hu Hin]].
  unfold Db.select_by_email in Hnone.
  rewrite first_or_null_filter_none in Hnone.
  specialize (Hnone u Hin). apply String.eqb_neq in Hnone. contradiction.
Qed.

Lemma ids_fresh_update id data env db :
  ids_fresh db -> ids_fresh (after_update id data env db).
Proof.
  intros [Hpos Hids]. split; [exact Hpos|].
  intros u Hin. apply in_after_update in Hin.
  destruct Hin as [u0 [Hin [-> _]]]. apply Hids. exact Hin.
Qed.

Lemma slots_owned_after_update id data env db :
  slots_owned db -> slots_owned (after_update id data env db).
Proof.
  intros Hown u tok Hin Hs. apply in_after_update in Hin.
  destruct Hin as [u0 [Hin [-> Hslot]]]. rewrite Hslot in Hs.
  apply Hown; assumption.
Qed.

Lemma ids_fresh_delete id db : ids_fresh db -> ids_fresh (after_delete id db).
Proof.
  intros [Hpos Hids]. split; [exact Hpos|].
  intros u Hin. apply in_after_delete in Hin. apply Hids. apply Hin.
Qed.

Lemma slots_owned_delete id db :
  slots_owned db -> slots_owned (after_delete id db).
Proof.
  intros Hown u tok Hin Hs. apply in_after_delete in Hin.
  apply Hown; [apply Hin|exact Hs].
Qed.

Lemma emails_unique_delete id db :
  emails_unique db -> emails_unique (after_delete id db).
Proof.
  unfold emails_unique, after_delete, UserDb.delete_by_id. simpl.
  apply NoDup_map_filter.
Qed.

(** X14. The writes of the user repository keep the table well formed for
    the session workflow: after [createUser], [updateById] or
    [deleteById], whether it returned or threw, the id counter is still
    positive and above every id and every occupied slot still holds its
    holder's own token; [createUser] and [deleteById] also keep stored
    e-mails unique. *)
Theorem user_writes_keep_invariants (db : Db.t) :
  ids_fresh db ->
  slots_owned db ->
  (forall input env,
     let db' := snd (UserRepository.createUser input env db) in
     ids_fresh db' /\ slots_owned db' /\ (emails_unique db -> emails_unique db')) /\
  (forall id data env,
     let db' := snd (UserRepository.updateById id data env db) in
     ids_fresh db' /\ slots_owned db') /\
  (forall id env,
     let db' := snd (UserRepository.deleteById id env db) in
     ids_fresh db' /\ slots_owned db' /\ (emails_unique db -> emails_unique db')).
Proof.
  intros Hids Hown. split; [|split].
  - intros input env. cbv zeta.
    destruct (createUser_table input env db) as [-> | [Hnone ->]]; [auto|].
    auto using ids_fresh_insert, slots_owned_insert, emails_unique_insert.
  - intros id data env. cbv zeta.
    destruct (updateById_table id data env db) as [-> | ->]; [auto|].
    auto using ids_fresh_update, slots_owned_after_update.
  - intros id env. cbv zeta.
    destruct (deleteById_table id env db) as [-> | ->]; [auto|].
    auto using ids_fresh_delete, slots_owned_delete, emails_unique_delete.
Qed.

Lemma user_writes_keep_invariants_witness :
  slots_owned
    (snd (UserRepository.updateById 1
            (UserRepository.mkUpdateData "Alice@New.com" "n3w")
            (at_second 120) db_logged_in)).
Proof.
  apply (user_writes_keep_invariants db_logged_in).
  - split; [reflexivity|]. rewrite db_logged_in_eq.
    intros u [<-|[<-|[]]]; simpl; lia.
  - exact db_logged_in_owned.
Defined.

(** ** Users created, changed and deleted, and their sessions *)





Lemma two_matches {A} (f : A -> bool) (l : list A) (a b : A) :
  In a l -> In b l -> a <> b -> f a = true -> f b = true ->
  (2 <= length (filter f l))%nat.
Proof.
  induction l as [|x l IH]; simpl; [contradiction|].
  intros Ha Hb Hab Hfa Hfb.
  assert (Hone : forall c, In c l -> f c = true ->
            (1 <= length (filter f l))%nat).
  { clear. induction l as [|y l IH]; simpl; [contradiction|].
    intros c [->|Hc] Hfc.
    - rewrite Hfc. simpl. lia.
    - destruct (f y); simpl; [lia|]. apply (IH c); assumption. }
  destruct Ha as [->|Ha], Hb as [->|Hb].
  - contradiction.
  - rewrite Hfa. simpl. specialize (Hone b Hb Hfb). lia.
  - rewrite Hfb. simpl. specialize (Hone a Ha Hfa). lia.
  - destruct (f x); simpl; [|apply IH; assumption].
    specialize (IH Ha Hb Hab Hfa Hfb). lia.
Qed.

Lemma unique_at_most_one (rows : list Db.User) (mail : string) :
  NoDup (map Db.email rows) ->
  (length (filter (fun v => (Db.email v =? mail)%string) rows) <= 1)%nat.
Proof.
  induction rows as [|r rows IH]; simpl; [lia|].
  intros Hnd. inversion Hnd as [|x xs Hnotin Hnd']; subst.
  destruct (String.eqb_spec (Db.email r) mail) as [E|E]; [|apply IH; exact Hnd'].
  simpl.
  replace (filter (fun v => (Db.email v =? mail)%string) rows) with (@nil Db.User);
    [simpl; lia|].
  symmetry. apply filter_nil_of_first. apply first_or_null_filter_none.
  intros u Hu. apply String.eqb_neq. intros Eu. apply Hnotin.
  rewrite E, <- Eu. apply in_map. exact Hu.
Qed.

(** X16. [updateById] does not check the new e-mail against the table:
    given to a row the lower-case e-mail another row is stored under, it
    returns the updated row and leaves two rows under that e-mail, so
    stored e-mails are no longer unique. *)
Theorem updateById_duplicates_email (id : Z) (data : UserRepository.UpdateData)
    (env : Env) (db : Db.t) (u v : Db.User) :
  In u (Db.users db) -> In v (Db.users db) ->
  Db.id v = id -> Db.id u <> id -> id <> 0 ->
  Db.email u = Js.toLowerCase (UserRepository.upd_email data) ->
  let result := UserRepository.updateById id data env db in
  (exists row, fst result = inr (Some row) /\
               Db.email row = Js.toLowerCase (UserRepository.upd_email data)) /\
  (2 <= count_email (Js.toLowerCase (UserRepository.upd_email data))
          (snd result))%nat /\
  ~ emails_unique (snd result).
Proof.
  intros Hu Hv Hidv Hidu Hnz Hmail. cbv zeta. rewrite updateById_unfold.
  apply Z.eqb_neq in Hnz. rewrite Hnz.
  destruct (first_or_null_filter_found (fun w => Db.id w =? id)
              (Db.users db) v Hv) as [found Hfound].
  { apply Z.eqb_eq. exact Hidv. }
  change (Db.first_or_null (UserDb.select_by_id id db) = Some found) in Hfound.
  rewrite !Hfound. simpl fst. simpl snd.
  set (f := fun w : Db.User =>
              if Db.id w =? id
              then UserDb.set_credentials
                     (Js.toLowerCase (UserRepository.upd_email data))
                     (Bcrypt.hash (UserRepository.upd_password data) 10
                        (salt env)) w
              else w).
  assert (Hrows : Db.users (after_update id data env db)
                  = map f (Db.users db)) by reflexivity.
  assert (Hfu : f u = u).
  { unfold f. apply Z.eqb_neq in Hidu. rewrite Hidu. reflexivity. }
  assert (Hfv : f v = UserDb.set_credentials
                        (Js.toLowerCase (UserRepository.upd_email data))
                        (Bcrypt.hash (UserRepository.upd_password data) 10
                           (salt env)) v).
  { unfold f. rewrite Hidv, Z.eqb_refl. reflexivity. }
  assert (Hcount : (2 <= count_email
                          (Js.toLowerCase (UserRepository.upd_email data))
                          (after_update id data env db))%nat).
  { unfold count_email, Db.select_by_email. rewrite Hrows.
    apply (two_matches _ _ (f u) (f v)).
    - apply in_map. exact Hu.
    - apply in_map. exact Hv.
    - rewrite Hfu, Hfv. intros E. apply Hidu. rewrite E. simpl. exact Hidv.
    - rewrite Hfu. apply String.eqb_eq. exact Hmail.
    - rewrite Hfv. simpl. apply String.eqb_refl. }
  split; [|split; [exact Hcount|]].
  - assert (Hin : In (f v) (Db.users (after_update id data env db))).
    { rewrite Hrows. apply in_map. exact Hv. }
    destruct (first_or_null_filter_found (fun w => Db.id w =? id) _ _ Hin)
      as [row Hrow].
    { rewrite Hfv. simpl. apply Z.eqb_eq. exact Hidv. }
    exists row. unfold UserDb.select_by_id. rewrite Hrow.
    split; [reflexivity|].
    apply first_or_null_filter_some in Hrow. destruct Hrow as [Hr Hrid].
    rewrite Hrows in Hr. apply in_map_iff in Hr. destruct Hr as [w [<- Hw]].
    unfold f in Hrid |- *. destruct (Db.id w =? id) eqn:Ew; [reflexivity|].
    rewrite Ew in Hrid. discriminate.
  - intros Hnd. unfold emails_unique in Hnd.
    pose proof (unique_at_most_one _
                  (Js.toLowerCase (UserRepository.upd_email data)) Hnd) as H1.
    unfold count_email, Db.select_by_email in Hcount. lia.
Qed.

Lemma updateById_duplicates_email_witness :
  (2 <= count_email "a@b.com"
          (snd (UserRepository.updateById 2
                  (UserRepository.mkUpdateData "A@B.com" "hunter22")
                  (at_second 30) db0)))%nat.
Proof.
  apply (updateById_duplicates_email 2
           (UserRepository.mkUpdateData "A@B.com" "hunter22")
           (at_second 30) db0 alice bob).
  - left. reflexivity.
  - right. left. reflexivity.
  - reflexivity.
  - discriminate.
  - discriminate.
  - reflexivity.
Defined.

Lemma sign_returns uid mail role secret life clock :
  (exists tok, Jwt.sign uid mail role secret life clock = inr tok) <->
  Js.truthy_string secret = true.
Proof.
  unfold Jwt.sign, Js.truthy_string. destruct secret as [k|].
  - destruct (k =? "")%string; simpl; split; eauto; try discriminate.
    intros [tok H]. discriminate.
  - split; [intros [tok H]|]; discriminate.
Qed.

(** Refresh returns exactly when some row holds the token, the token
    verifies and both secrets are set. *)
Lemma refresh_returns_iff tok env db :
  (exists pair db', AuthService.refreshToken tok env db = (inr pair, db')) <->
  (exists holder,
     Db.first_or_null (Db.select_by_refreshToken tok db) = Some holder) /\
  (exists p,
     Jwt.verify tok (JWT_REFRESH_SECRET (process env)) (now env) = inr p) /\
  Js.truthy_string (JWT_SECRET (process env)) = true /\
  Js.truthy_string (JWT_REFRESH_SECRET (process env)) = true.
Proof.
  rewrite refreshToken_unfold. split.
  - intros [pair [db' H]].
    destruct (Db.first_or_null (Db.select_by_refreshToken tok db))
      as [holder|]; [|discriminate].
    destruct (Jwt.verify tok (JWT_REFRESH_SECRET (process env)) (now env))
      as [e|p]; [discriminate|].
    destruct (Jwt.sign (Db.id holder) (Db.email holder)
                (Some (Db.rolId holder)) (JWT_SECRET (process env)) 900
                (now env)) as [e|acc] eqn:Ha; [discriminate|].
    destruct (Jwt.sign (Db.id holder) (Db.email holder) None
                (JWT_REFRESH_SECRET (process env)) 604800 (now env))
      as [e|new] eqn:Hr; [discriminate|].
    split; [eauto|]. split; [eauto|]. split.
    + apply (sign_returns (Db.id holder) (Db.email holder)
               (Some (Db.rolId holder)) _ 900 (now env)). eauto.
    + apply (sign_returns (Db.id holder) (Db.email holder) None _ 604800
               (now env)). eauto.
  - intros [[holder ->] [[p ->] [Ha Hr]]].
    apply (sign_returns (Db.id holder) (Db.email holder)
             (Some (Db.rolId holder)) _ 900 (now env)) in Ha.
    apply (sign_returns (Db.id holder) (Db.email holder) None _ 604800
             (now env)) in Hr.
    destruct Ha as [acc ->]. destruct Hr as [new ->]. eauto.
Qed.

Lemma select_token_after_update tok id data env db :
  Db.select_by_refreshToken tok (after_update id data env db) =
  map (fun u => if Db.id u =? id
                then UserDb.set_credentials
                       (Js.toLowerCase (UserRepository.upd_email data))
                       (Bcrypt.hash (UserRepository.upd_password data) 10
                          (salt env)) u
                else u)
      (Db.select_by_refreshToken tok db).
Proof.
  unfold Db.select_by_refreshToken, after_update, UserDb.update_credentials.
  simpl. induction (Db.users db) as [|u rows IH]; simpl; [reflexivity|].
  rewrite IH.
  assert (E : forall w : Db.User,
            Db.slot_is tok (if Db.id u =? id
                            then UserDb.set_credentials
                                   (Js.toLowerCase (UserRepository.upd_email data))
                                   (Bcrypt.hash (UserRepository.upd_password data)
                                      10 (salt env)) u
                            else u) = Db.slot_is tok u).
  { intros _. destruct (Db.id u =? id); reflexivity. }
  rewrite (E u). destruct (Db.slot_is tok u); reflexivity.
Qed.

(** X17. Changing a user's e-mail and password does not end the user's
    session: [updateById], whether it returns or throws, leaves every id
    and every slot as it was, so a refresh token refreshes after the call
    exactly when it would have refreshed before it. *)
Theorem updateById_keeps_sessions (id : Z) (data : UserRepository.UpdateData)
    (env : Env) (db : Db.t) :
  let db' := snd (UserRepository.updateById id data env db) in
  map Db.id (Db.users db') = map Db.id (Db.users db) /\
  map Db.refreshToken (Db.users db') = map Db.refreshToken (Db.users db) /\
  forall tok env2,
    (exists pair db2, AuthService.refreshToken tok env2 db' = (inr pair, db2)) <->
    (exists pair db2, AuthService.refreshToken tok env2 db = (inr pair, db2)).
Proof.
  cbv zeta.
  destruct (updateById_table id data env db) as [-> | ->];
    [repeat split; auto|].
  split; [|split].
  - unfold after_update, UserDb.update_credentials. simpl.
    rewrite map_map. apply map_ext. intros u.
    destruct (Db.id u =? id); reflexivity.
  - unfold after_update, UserDb.update_credentials. simpl.
    rewrite map_map. apply map_ext. intros u.
    destruct (Db.id u =? id); reflexivity.
  - intros tok env2. rewrite !refresh_returns_iff.
    rewrite select_token_after_update.
    destruct (Db.select_by_refreshToken tok db) as [|h rest]; simpl.
    + reflexivity.
    + split; intros [_ H]; (split; [eauto|exact H]).
Qed.

Lemma updateById_keeps_sessions_witness :
  exists pair db2,
    AuthService.refreshToken (alice_token 100) (at_second 300)
      (snd (UserRepository.updateById 1
              (UserRepository.mkUpdateData "Alice@New.com" "n3w")
              (at_second 120) db_logged_in))
    = (inr pair, db2).
Proof.
  apply (updateById_keeps_sessions 1
           (UserRepository.mkUpdateData "Alice@New.com" "n3w")
           (at_second 120) db_logged_in).
  eexists. eexists. reflexivity.
Defined.

(** X18. Deleting a user ends the user's session: after [deleteById]
    returned, no row has that id, the rows with other ids are all still
    there, and, in a table whose slots held their holders' own tokens,
    every token carrying that id is refused with "Invalid refresh token". *)
Theorem deleteById_revokes (id : Z) (env : Env) (db db1 : Db.t) :
  slots_owned db ->
  UserRepository.deleteById id env db = (inr true, db1) ->
  (forall u, In u (Db.users db1) <-> In u (Db.users db) /\ Db.id u <> id) /\
  (forall env2, UserRepository.findById id env2 db1 = (inr None, db1)) /\
  forall tok env2,
    Jwt.subject tok = Some id ->
    AuthService.refreshToken tok env2 db1
      = (inl (Js.Error "Invalid refresh token"), db1).
Proof.
  intros Hown. rewrite deleteById_unfold.
  destruct (Z.eqb_spec id 0) as [E|E]; [discriminate|].
  destruct (Db.first_or_null (UserDb.select_by_id id db)) as [found|];
    [|discriminate].
  intros H. injection H as <-. split; [|split].
  - intros w. apply in_after_delete.
  - intros env2. rewrite user_findById_run by exact E.
    replace (Db.first_or_null (UserDb.select_by_id id (after_delete id db)))
      with (@None Db.User); [reflexivity|].
    symmetry. apply first_or_null_filter_none. intros u Hu.
    apply in_after_delete in Hu. apply Z.eqb_neq. apply Hu.
  - intros tok env2 Hsub. apply refreshToken_unmatched.
    intros u Hu. apply in_after_delete in Hu. destruct Hu as [Hin Hid].
    destruct (Db.slot_is tok u) eqn:Hs; [|reflexivity].
    apply slot_is_true in Hs. specialize (Hown u tok Hin Hs). congruence.
Qed.

Lemma deleteById_revokes_witness :
  AuthService.refreshToken (alice_token 100) (at_second 300)
    (snd (UserRepository.deleteById 1 (at_second 200) db_logged_in))
  = (inl (Js.Error "Invalid refresh token"),
     snd (UserRepository.deleteById 1 (at_second 200) db_logged_in)).
Proof.
  apply (deleteById_revokes 1 (at_second 200) db_logged_in
           (snd (UserRepository.deleteById 1 (at_second 200) db_logged_in))
           db_logged_in_owned).
  - reflexivity.
  - reflexivity.
Defined.

(** X19. [POST /users] answers with the stored row: on a table whose id
    counter is above every id, for a non-empty e-mail no row is stored
    under, the answer is status 201 with the inserted row, and that row
    carries the bcrypt digest of the password; for an e-mail a row is
    stored under, the answer is status 500 with "Internal Server Error". *)
Theorem user_create_answers_with_digest (body : UserRepository.NewUser)
    (env : Env) (db : Db.t) :
  ids_fresh db ->
  UserRepository.email body <> "" ->
  let stored :=
    Db.first_or_null
      (Db.select_by_email (Js.toLowerCase (UserRepository.email body)) db) in
  (stored = None ->
   exists row,
     fst (UserController.create body env db) = UserController.RowJson 201 (Some row) /\
     Db.password row = Bcrypt.hash (UserRepository.password body) 10 (salt env) /\
     Bcrypt.compare (UserRepository.password body) (Db.password row) = true) /\
  (stored <> None ->
   UserController.create body env db =
   (UserController.Handled
      (mkResponse 500 (ErrorBody "error" "Internal Server Error")), db)).
Proof.
  intros Hids Hne. cbv zeta.
  unfold UserController.create, UserService.createUser.
  rewrite createUser_unfold. apply String.eqb_neq in Hne. rewrite Hne.
  split.
  - intros ->. rewrite user_findById_run by (destruct Hids; lia).
    rewrite select_by_id_fresh by exact Hids. simpl.
    eexists. split; [reflexivity|]. simpl. split; [reflexivity|].
    apply String.eqb_refl.
  - intros Hsome. destruct (Db.first_or_null _); [reflexivity|contradiction].
Qed.

Lemma user_create_answers_with_digest_witness :
  exists row,
    fst (UserController.create
           (UserRepository.mkNewUser "Carol@X.com" "s3cret" 2)
           (at_second 9) db0) = UserController.RowJson 201 (Some row) /\
    Db.password row = Bcrypt.Digest 10 "salt" "s3cret" /\
    Bcrypt.compare "s3cret" (Db.password row) = true.
Proof.
  apply (user_create_answers_with_digest
           (UserRepository.mkNewUser "Carol@X.com" "s3cret" 2)
           (at_second 9) db0 db0_ids_fresh).
  - discriminate.
  - reflexivity.
Defined.

(** ** Sessions are never shared *)

(** X20. In every table the session workflow reaches from one in which
    nobody is logged in, a refresh token sits only in slots of the user it
    was minted for: two rows that hold the same token have the same id,
    and that id is the token's [id] claim. *)
Theorem sessions_never_shared (db : Db.t) (u v : Db.User) (tok : Jwt.token) :
  reachable db ->
  In u (Db.users db) -> In v (Db.users db) ->
  Db.refreshToken u = Some tok -> Db.refreshToken v = Some tok ->
  Db.id u = Db.id v /\ Jwt.subject tok = Some (Db.id u).
Proof.
  intros Hreach Hu Hv Hsu Hsv.
  pose proof (reachable_owned db Hreach) as Hown.
  pose proof (Hown u tok Hu Hsu) as H1.
  pose proof (Hown v tok Hv Hsv) as H2.
  split; congruence.
Qed.

Lemma db_logged_in_reachable : reachable db_logged_in.
Proof.
  apply (reach_login "A@B.com" "pw123456" (at_second 100) db0).
  apply reach_init. intros u [<-|[<-|[]]]; reflexivity.
Qed.

Lemma sessions_never_shared_witness :
  Jwt.subject (alice_token 100) = Some 1.
Proof.
  apply (sessions_never_shared db_logged_in
           (Db.set_refreshToken (Some (alice_token 100)) alice)
           (Db.set_refreshToken (Some (alice_token 100)) alice)
           (alice_token 100) db_logged_in_reachable).
  - rewrite db_logged_in_eq. left. reflexivity.
  - rewrite db_logged_in_eq. left. reflexivity.
  - reflexivity.
  - reflexivity.
Defined.
